(** * Oxford-IIIT Pet dataset pipeline: a shallow embedding

    Source: torchvision/prototype/datasets/_builtin/oxford_iiit_pet.py.

    Python [str] values are [string]s (characters are ASCII), Python
    integers are [Z], tuples are pairs, [Dict[str, str]] is a
    [gmap string string].  A call that can raise returns a [result]. *)

From Stdlib Require Import ZArith Ascii String.
From stdpp Require Import base tactics option list strings gmap sorting.

Local Open Scope string_scope.
Local Open Scope Z_scope.

(** ** Python exceptions and fallible computations *)

(** The built-in exceptions the code can raise, the hard error of the
    parser on a malformed line ([MalformedLine], modelled from the spec,
    which does not name it) and any other exception, by its name (what a
    decoder may raise). *)
Inductive exn : Set :=
  | KeyError
  | ValueError
  | IndexError
  | MalformedLine
  | OtherError (what : string).

Inductive result (A : Type) : Type :=
  | Ok (a : A)
  | Raise (e : exn).
Arguments Ok {A} a.
Arguments Raise {A} e.

Global Instance result_ret : MRet result := @Ok.

Global Instance result_bind : MBind result := fun A B k r =>
  match r with
  | Ok a => k a
  | Raise e => Raise e
  end.

Global Instance result_fmap : FMap result := fun A B f r =>
  match r with
  | Ok a => Ok (f a)
  | Raise e => Raise e
  end.

(** ** The fragment of Python's [str], [int] and sequence indexing in use *)

Module Py.

(** [len(s)] *)
Definition len (s : string) : Z := Z.of_nat (String.length s).

(** [s.startswith(prefix)] *)
Fixpoint startswith (s prefix : string) {struct prefix} : bool :=
  match prefix, s with
  | EmptyString, _ => true
  | String _ _, EmptyString => false
  | String a prefix', String b s' => if Ascii.eqb a b then startswith s' prefix' else false
  end.

(** [s.endswith(suffix)]: some tail of [s] is [suffix]. *)
Fixpoint endswith (s suffix : string) : bool :=
  if String.eqb s suffix then true
  else match s with
       | EmptyString => false
       | String _ s' => endswith s' suffix
       end.

(** [s.rfind(c)] for a one-character needle: the highest index holding
    [c], or [-1]. *)
Fixpoint rfind (s : string) (c : ascii) : Z :=
  match s with
  | EmptyString => -1
  | String a s' =>
      let i := rfind s' c in
      if 0 <=? i then i + 1
      else if Ascii.eqb a c then 0 else -1
  end.

(** [s[n:]] and [s[:n]] for a non-negative [n]. *)
Fixpoint drop (n : nat) (s : string) : string :=
  match n, s with
  | O, _ => s
  | S _, EmptyString => EmptyString
  | S n', String _ s' => drop n' s'
  end.

Fixpoint take (n : nat) (s : string) : string :=
  match n, s with
  | O, _ => EmptyString
  | S _, EmptyString => EmptyString
  | S n', String a s' => String a (take n' s')
  end.

Definition slice_from (s : string) (i : Z) : string := drop (Z.to_nat i) s.
Definition slice_to (s : string) (i : Z) : string := take (Z.to_nat i) s.

(** [s.split(sep)] for a one-character separator: never empty. *)
Fixpoint split (s : string) (sep : ascii) : list string :=
  match s with
  | EmptyString => [EmptyString]
  | String a s' =>
      if Ascii.eqb a sep then EmptyString :: split s' sep
      else match split s' sep with
           | w :: ws => String a w :: ws
           | [] => [String a EmptyString]
           end
  end.

(** The characters [int()] strips from an ASCII string: tab, line feed,
    vertical tab, form feed, carriage return and the blank. *)
Definition isspace (c : ascii) : bool :=
  let n := nat_of_ascii c in
  ((9 <=? n) && (n <=? 13) || (n =? 32))%nat.

Fixpoint lstrip (s : string) : string :=
  match s with
  | String a s' => if isspace a then lstrip s' else s
  | EmptyString => EmptyString
  end.

Definition strip (s : string) : string :=
  String.rev (lstrip (String.rev (lstrip s))).

Definition digit (c : ascii) : option Z :=
  let n := nat_of_ascii c in
  if ((48 <=? n) && (n <=? 57))%nat then Some (Z.of_nat n - 48) else None.

(** Decimal digits with single underscores allowed between digits.
    [acc] is the value read so far, [after_digit] tells whether the
    previous character was a digit. *)
Fixpoint digits (s : string) (acc : Z) (after_digit : bool) : option Z :=
  match s with
  | EmptyString => if after_digit then Some acc else None
  | String a s' =>
      match digit a with
      | Some d => digits s' (10 * acc + d) true
      | None =>
          if Ascii.eqb a "_" && after_digit then digits s' acc false
          else None
      end
  end.

(** [int(s)] in base ten.  The limit that newer interpreters put on the
    number of digits (4300 unless configured) is not modelled. *)
Definition int (s : string) : result Z :=
  let body (t : string) := digits t 0 false in
  let r := match strip s with
           | String "-" t => Z.opp <$> body t
           | String "+" t => body t
           | t => body t
           end in
  match r with
  | Some n => Ok n
  | None => Raise ValueError
  end.

(** [seq[i]] on a tuple or list: negative indices count from the end,
    anything outside [-len, len) raises [IndexError]. *)
Definition getitem {A : Type} (seq : list A) (i : Z) : result A :=
  let n := Z.of_nat (length seq) in
  let j := if i <? 0 then i + n else i in
  if (j <? 0) || (n <=? j) then Raise IndexError
  else match seq !! Z.to_nat j with
       | Some x => Ok x
       | None => Raise IndexError
       end.

(** [d[k]] on a dict. *)
Definition dict_getitem {V : Type} (d : gmap string V) (k : string) : result V :=
  match d !! k with
  | Some v => Ok v
  | None => Raise KeyError
  end.

(** [s.rsplit(sep, 1)[0]] for a one-character separator: what stands
    before the last [sep], or all of [s] when it has none. *)
Definition rsplit_first (s : string) (sep : ascii) : string :=
  let i := rfind s sep in
  if 0 <=? i then slice_to s i else s.

(** [sep.join(parts)] *)
Fixpoint join (sep : string) (parts : list string) : string :=
  match parts with
  | [] => ""
  | [w] => w
  | w :: ws => w ++ sep ++ join sep ws
  end.

Definition islower (c : ascii) : bool :=
  let n := nat_of_ascii c in ((97 <=? n) && (n <=? 122))%nat.

Definition isupper (c : ascii) : bool :=
  let n := nat_of_ascii c in ((65 <=? n) && (n <=? 90))%nat.

Definition upper (c : ascii) : ascii :=
  if islower c then ascii_of_nat (nat_of_ascii c - 32) else c.

Definition lower (c : ascii) : ascii :=
  if isupper c then ascii_of_nat (nat_of_ascii c + 32) else c.

(** [s.title()]: a letter that follows a letter is lowered, any other
    letter is raised, and what is no letter starts a new word. *)
Fixpoint title_from (s : string) (previous_is_cased : bool) : string :=
  match s with
  | EmptyString => EmptyString
  | String c s' =>
      if islower c then
        String (if previous_is_cased then c else upper c) (title_from s' true)
      else if isupper c then
        String (if previous_is_cased then lower c else c) (title_from s' true)
      else String c (title_from s' false)
  end.

Definition title (s : string) : string := title_from s false.

(** The elements a comprehension [{f(x) for x in dp}] inserts, in order:
    the first exception of [f] or, after the last item, of the iterable
    ends it. *)
Fixpoint collect {A B : Type} (f : A -> result B) (items : list A)
    (tail : option exn) : result (list B) :=
  match items with
  | [] => match tail with
          | Some e => Raise e
          | None => Ok []
          end
  | a :: items' =>
      b ← f a;
      bs ← collect f items' tail;
      mret (b :: bs)
  end.

(** What iterating over a set built from the inserted elements may give:
    every element once, in an order the language leaves open. *)
Definition set_iteration {A : Type} (iter : list A -> list A) : Prop :=
  forall inserted : list A,
    NoDup (iter inserted) /\ forall x, x ∈ iter inserted <-> x ∈ inserted.

(** The keys of [sorted(items, key=key)], computed once and in order
    before anything is compared. *)
Fixpoint decorate {A : Type} (key : A -> result Z) (items : list A)
  : result (list (Z * A)) :=
  match items with
  | [] => Ok []
  | a :: items' =>
      k ← key a;
      rest ← decorate key items';
      mret ((k, a) :: rest)
  end.

(** [x] goes in front of the first entry whose key is not smaller, so
    entries with equal keys keep their order. *)
Fixpoint insert_by_key {A : Type} (x : Z * A) (l : list (Z * A)) : list (Z * A) :=
  match l with
  | [] => [x]
  | y :: l' => if x.1 <=? y.1 then x :: y :: l' else y :: insert_by_key x l'
  end.

Fixpoint sort_by_key {A : Type} (l : list (Z * A)) : list (Z * A) :=
  match l with
  | [] => []
  | x :: l' => insert_by_key x (sort_by_key l')
  end.

(** [sorted(items, key=key)]: a stable sort by integer key. *)
Definition sorted {A : Type} (items : list A) (key : A -> result Z)
  : result (list A) :=
  decorated ← decorate key items;
  mret ((sort_by_key decorated).*2).

(** Unpacking the transposed pairs into two names: the two columns of
    the pairs; nothing to unpack when there is no pair. *)
Definition unzip2 {A B : Type} (pairs : list (A * B)) : result (list A * list B) :=
  match pairs with
  | [] => Raise ValueError
  | _ => Ok (pairs.*1, pairs.*2)
  end.

End Py.

(** ** [pathlib.PurePosixPath] *)

Module pathlib.

(** A parsed path: the root ([""], ["/"] or ["//"]) and the components
    that follow it.  Empty components and ["."] are discarded by the
    parser; [".."] is kept. *)
Record Path : Type := mkPath { root : string; names : list string }.

Definition splitroot (part : string) : string :=
  match part with
  | String "/" (String "/" (String "/" _)) => "/"
  | String "/" (String "/" _) => "//"
  | String "/" _ => "/"
  | _ => ""
  end.

Definition keep_component (x : string) : bool :=
  negb (String.eqb x "") && negb (String.eqb x ".").

Definition parse (p : string) : Path :=
  {| root := splitroot p;
     names := List.filter keep_component (Py.split p "/") |}.

(** [.parent] *)
Definition parent (p : Path) : Path :=
  {| root := root p; names := removelast (names p) |}.

(** [.name] *)
Definition name (p : Path) : string := List.last (names p) "".

(** [.suffix] *)
Definition suffix (p : Path) : string :=
  let name := name p in
  let i := Py.rfind name "." in
  if (0 <? i) && (i <? Py.len name - 1) then Py.slice_from name i else "".

(** [.stem] *)
Definition stem (p : Path) : string :=
  let name := name p in
  let i := Py.rfind name "." in
  if (0 <? i) && (i <? Py.len name - 1) then Py.slice_to name i else name.

End pathlib.

(** ** Datapipes

    An [IterDataPipe] is a lazy, pull-based sequence.  What a consumer
    observes when it drains one is the items it yields, in order, and
    the exception that ends the iteration, if any. *)

Record IterDataPipe (A : Type) : Type :=
  mkDataPipe { yielded : list A; raised : option exn }.
Arguments mkDataPipe {A} yielded raised.
Arguments yielded {A} _.
Arguments raised {A} _.

(** Iteration ends, normally or with the exception [tail]. *)
Definition finish {A : Type} (tail : option exn) : IterDataPipe A :=
  mkDataPipe [] tail.

(** Iteration yields [a] and goes on as [dp]. *)
Definition yield {A : Type} (a : A) (dp : IterDataPipe A) : IterDataPipe A :=
  mkDataPipe (a :: yielded dp) (raised dp).

(** A raw entry of an archive: its path and its byte stream. *)
Definition buffer : Type := string.
Definition entry : Type := string * buffer.

(** The newline character. *)
Definition LF : ascii := ascii_of_nat 10.

Module datapipes.
Section Primitives.
Context {A B : Type}.

(** Modelled from the spec: [Filter] of the external datapipe library
    (section 4.2: a pure predicate evaluated independently per entry in
    a single forward pass). *)
Definition Filter (dp : IterDataPipe A) (filter_fn : A -> bool) : IterDataPipe A :=
  mkDataPipe (List.filter filter_fn (yielded dp)) (raised dp).

(** Modelled from the spec: the loop of a map stage.  The items of
    [source] go through [fn] one at a time; the first
    exception ends the iteration. *)
Fixpoint map_items (fn : A -> result B) (source : list A) (tail : option exn)
  : IterDataPipe B :=
  match source with
  | [] => finish tail
  | a :: source' =>
      match fn a with
      | Ok b => yield b (map_items fn source' tail)
      | Raise e => finish (Some e)
      end
  end.

(** Modelled from the spec: [Mapper] of the external datapipe library
    (section 9: a map stage of the lazy pipeline). *)
Definition Mapper (dp : IterDataPipe A) (fn : A -> result B) : IterDataPipe B :=
  map_items fn (yielded dp) (raised dp).

(** Modelled from the spec: [Demultiplexer] of the external datapipe
    library with [drop_none=True] and an unbounded buffer (glossary:
    split one input sequence into several by a per-entry classifier;
    section 4.1: entries tagged none are dropped with no error
    signal).  Child [i], for [0 <= i < num_instances], sees the entries
    tagged [i]. *)
Definition Demultiplexer (dp : IterDataPipe A) (num_instances : Z)
    (classifier_fn : A -> option Z) (i : Z) : IterDataPipe A :=
  if (0 <=? i) && (i <? num_instances) then
    mkDataPipe
      (List.filter (fun a => bool_decide (classifier_fn a = Some i)) (yielded dp))
      (raised dp)
  else finish None.

(** Modelled from the spec: the buffer of a join.  The first pending
    entry whose key is [key], and the others. *)
Fixpoint pop_key (ref_key_fn : B -> string) (key : string) (pending : list B)
  : option (B * list B) :=
  match pending with
  | [] => None
  | b :: pending' =>
      if String.eqb (ref_key_fn b) key then Some (b, pending')
      else match pop_key ref_key_fn key pending' with
           | Some (x, rest) => Some (x, b :: rest)
           | None => None
           end
  end.

(** Modelled from the spec: the loop of a join.  Each source entry takes
    its match out of the pending reference entries; without a match it
    is dropped, unless the reference side ended with an exception, which
    the search for the match then meets. *)
Fixpoint zip_items (key_fn : A -> result string) (ref_key_fn : B -> string)
    (source : list A) (tail : option exn)
    (pending : list B) (ref_tail : option exn) : IterDataPipe (A * B) :=
  match source with
  | [] => finish tail
  | a :: source' =>
      match key_fn a with
      | Raise e => finish (Some e)
      | Ok key =>
          match pop_key ref_key_fn key pending with
          | Some (b, pending') =>
              yield (a, b) (zip_items key_fn ref_key_fn source' tail pending' ref_tail)
          | None =>
              match ref_tail with
              | Some e => finish (Some e)
              | None => zip_items key_fn ref_key_fn source' tail pending ref_tail
              end
          end
      end
  end.

(** Modelled from the spec: [IterKeyZipper] of the external datapipe
    library with an unbounded buffer (section 4.5: an inner join on a
    string key; entries of the reference side are held, keyed, until
    the source entry with that key arrives; an entry without a match
    on the other side is dropped without signal).  The spec leaves
    several reference entries with one key open; here the oldest one
    is taken. *)
Definition IterKeyZipper (source_datapipe : IterDataPipe A)
    (ref_datapipe : IterDataPipe B)
    (key_fn : A -> result string) (ref_key_fn : B -> string)
  : IterDataPipe (A * B) :=
  zip_items key_fn ref_key_fn
    (yielded source_datapipe) (raised source_datapipe)
    (yielded ref_datapipe) (raised ref_datapipe).

End Primitives.

(** Modelled from the spec: the text lines of a byte stream; a newline
    ends a line. *)
Definition readlines (content : buffer) : list string :=
  let lines := Py.split content LF in
  if String.eqb (List.last lines "") "" then removelast lines else lines.

(** Modelled from the spec: the record of a line,
    [dict(zip(fieldnames, fields))]. *)
Definition dict_zip (fieldnames fields : list string) : gmap string string :=
  fold_left (fun d kv => <[kv.1 := kv.2]> d) (zip fieldnames fields) ∅.

(** Modelled from the spec: the fields of a line are delimited by white
    space (section 4.3); the [delimiter] the caller names, a blank,
    delimits as white space does.  A run of delimiters is one delimiter,
    and delimiters at either end of the line delimit nothing.  [word]
    holds the characters of the field being read. *)
Fixpoint fields_from (delimiter : ascii) (line : string) (word : string)
  : list string :=
  match line with
  | EmptyString => if String.eqb word "" then [] else [word]
  | String c line' =>
      if Ascii.eqb c delimiter || Py.isspace c then
        if String.eqb word "" then fields_from delimiter line' ""
        else word :: fields_from delimiter line' ""
      else fields_from delimiter line' (word ++ String c "")
  end.

Definition split_fields (delimiter : ascii) (line : string) : list string :=
  fields_from delimiter line "".

(** Modelled from the spec: the fields that a line of the classification
    list holds (section 4.3). *)
Definition line_fields : list string :=
  ["image_id"; "label"; "species"; "breed_id"].

(** Modelled from the spec: one line of the classification list.  A
    line that does not hold exactly the fields of [line_fields] has the
    wrong field count; of a well-formed line the first fields are
    named, and the others are not used. *)
Definition parse_row (fieldnames : list string) (delimiter : ascii) (line : string)
  : result (gmap string string) :=
  let fields := split_fields delimiter line in
  if (length fields =? length line_fields)%nat then Ok (dict_zip fieldnames fields)
  else Raise MalformedLine.

(** Modelled from the spec: [CSVDictParser] of the external datapipe
    library (section 4.3: one record per line of white-space delimited
    fields, named by [fieldnames]; fields beyond the named ones are not
    used; a line with the wrong field count is a hard error). *)
Definition CSVDictParser (dp : IterDataPipe entry)
    (fieldnames : list string) (delimiter : ascii)
  : IterDataPipe (gmap string string) :=
  map_items (parse_row fieldnames delimiter)
    (flat_map (fun data => readlines data.2) (yielded dp)) (raised dp).

End datapipes.

(** ** Helpers of [torchvision.prototype.datasets.utils._internal] *)

Module internal.

(** Modelled from the spec: [path_comparator] (section 4.2: keep the
    entries whose path attribute equals the value). *)
Definition path_comparator (getter : pathlib.Path -> string) (value : string)
  : entry -> bool :=
  fun data => String.eqb (getter (pathlib.parse data.1)) value.

(** Modelled from the spec: [path_accessor] (section 4.5: the join key
    of an entry is an attribute of its path). *)
Definition path_accessor (getter : pathlib.Path -> string) : entry -> string :=
  fun data => getter (pathlib.parse data.1).

(** Modelled from the spec: [getitem] (section 4.5: the join key of a
    record is its [image_id] field). *)
Definition getitem (item : string) : gmap string string -> result string :=
  fun obj => Py.dict_getitem obj item.

(** Modelled from the spec: [hint_sharding] and [hint_shuffling]
    (section 5: the pipeline only signals that it may be sharded and
    shuffled by the surrounding loader; neither changes the sequence). *)
Definition hint_sharding {A : Type} (dp : IterDataPipe A) : IterDataPipe A := dp.
Definition hint_shuffling {A : Type} (dp : IterDataPipe A) : IterDataPipe A := dp.

End internal.

(** ** The dataset *)

Module OxfordIITPet.
Import datapipes internal.

(** Modelled from the spec: [DatasetConfig] of the dataset utilities,
    which are not among the sources (section 6: one recognized option,
    the split). *)
Record DatasetConfig : Type := mkConfig { split : string }.

(** Modelled from the spec: [torchvision.prototype.features.Label],
    which is not among the sources (section 3: an index and a category). *)
Record Label : Type := mkLabel { index : Z; category : string }.

(** The dict built by [_decode_classification_data]. *)
Module Classification.
Record t : Type := mk { label : Label; species : string }.
End Classification.

Section Dataset.
Context {Tensor : Type}.

(** [self.info.categories]: the category table of the dataset, a
    generated file that is not among the sources. *)
Variable categories : list string.

(** [decoder(buffer) if decoder else buffer] *)
Inductive Feature : Type :=
  | Undecoded (b : buffer)
  | Decoded (t : Tensor).

Record Sample : Type := mkSample {
  label : Label;
  species : string;
  segmentation_path : string;
  segmentation : Feature;
  image_path : string;
  image : Feature
}.

Definition _classify_anns (data : entry) : option Z :=
  ({[ "annotations" := 0; "trimaps" := 1 ]} : gmap string Z)
    !! pathlib.name (pathlib.parent (pathlib.parse data.1)).

Definition _filter_images (data : entry) : bool :=
  String.eqb (pathlib.suffix (pathlib.parse data.1)) ".jpg".

Definition _filter_segmentations (data : entry) : bool :=
  negb (Py.startswith (pathlib.name (pathlib.parse data.1)) ".").

Definition _decode_classification_data (data : gmap string string)
  : result Classification.t :=
  l ← Py.dict_getitem data "label";
  n ← Py.int l;
  let label_idx := n - 1 in
  c ← Py.getitem categories label_idx;
  s ← Py.dict_getitem data "species";
  mret (Classification.mk (mkLabel label_idx c)
          (if String.eqb s "1" then "cat" else "dog")).

Definition decode (decoder : option (buffer -> result Tensor)) (b : buffer)
  : result Feature :=
  match decoder with
  | Some f => Decoded <$> f b
  | None => Ok (Undecoded b)
  end.

Definition _collate_and_decode_sample
    (decoder : option (buffer -> result Tensor))
    (data : (gmap string string * entry) * entry) : result Sample :=
  let '(ann_data, image_data) := data in
  let '(classification_data, segmentation_data) := ann_data in
  let '(segmentation_path, segmentation_buffer) := segmentation_data in
  let '(image_path, image_buffer) := image_data in
  c ← _decode_classification_data classification_data;
  seg ← decode decoder segmentation_buffer;
  img ← decode decoder image_buffer;
  mret (mkSample (Classification.label c) (Classification.species c)
          segmentation_path seg image_path img).

(** The stages of [_make_datapipe], named for the statements below:
    the parsed classification list of the split, the kept segmentation
    entries, and the doubly joined stream handed to the [Mapper]. *)
Definition classification_stage (anns_dp : IterDataPipe entry)
    (config : DatasetConfig) : IterDataPipe (gmap string string) :=
  hint_shuffling (hint_sharding
    (CSVDictParser
       (Filter (Demultiplexer anns_dp 2 _classify_anns 0)
          (path_comparator pathlib.name (split config ++ ".txt")))
       ["image_id"; "label"; "species"] " ")).

Definition segmentation_stage (anns_dp : IterDataPipe entry)
  : IterDataPipe entry :=
  Filter (Demultiplexer anns_dp 2 _classify_anns 1) _filter_segmentations.

Definition joined_stage
    (resource_dps : IterDataPipe entry * IterDataPipe entry)
    (config : DatasetConfig)
  : IterDataPipe ((gmap string string * entry) * entry) :=
  IterKeyZipper
    (IterKeyZipper (classification_stage resource_dps.2 config)
       (segmentation_stage resource_dps.2)
       (getitem "image_id") (path_accessor pathlib.stem))
    (Filter resource_dps.1 _filter_images)
    (fun data => getitem "image_id" data.1) (path_accessor pathlib.stem).

Definition _make_datapipe
    (resource_dps : IterDataPipe entry * IterDataPipe entry)
    (config : DatasetConfig)
    (decoder : option (buffer -> result Tensor)) : IterDataPipe Sample :=
  let '(images_dp, anns_dp) := resource_dps in
  let images_dp := Filter images_dp _filter_images in
  let split_and_classification_dp := Demultiplexer anns_dp 2 _classify_anns 0 in
  let segmentations_dp := Demultiplexer anns_dp 2 _classify_anns 1 in
  let split_and_classification_dp :=
    Filter split_and_classification_dp
      (path_comparator pathlib.name (split config ++ ".txt")) in
  let split_and_classification_dp :=
    CSVDictParser split_and_classification_dp
      ["image_id"; "label"; "species"] " " in
  let split_and_classification_dp := hint_sharding split_and_classification_dp in
  let split_and_classification_dp := hint_shuffling split_and_classification_dp in
  let segmentations_dp := Filter segmentations_dp _filter_segmentations in
  let anns_dp :=
    IterKeyZipper split_and_classification_dp segmentations_dp
      (getitem "image_id") (path_accessor pathlib.stem) in
  let dp :=
    IterKeyZipper anns_dp images_dp
      (fun data => getitem "image_id" data.1) (path_accessor pathlib.stem) in
  Mapper dp (_collate_and_decode_sample decoder).


Definition _filter_split_and_classification_anns (data : entry) : bool :=
  bool_decide (_classify_anns data = Some 0).

(** The rows [_generate_categories] reads: the classification list of
    the default split with the fields image_id and label. *)
Definition category_rows (anns_dp : IterDataPipe entry)
    (default_config : DatasetConfig) : IterDataPipe (gmap string string) :=
  let config := default_config in
  let dp := anns_dp in
  let dp := Filter dp _filter_split_and_classification_anns in
  let dp := Filter dp (path_comparator pathlib.name (split config ++ ".txt")) in
  CSVDictParser dp ["image_id"; "label"] " ".

(** The element of the set comprehension of [_generate_categories]. *)
Definition raw_category_and_label (data : gmap string string)
  : result (string * string) :=
  image_id ← Py.dict_getitem data "image_id";
  label ← Py.dict_getitem data "label";
  mret (Py.rsplit_first image_id "_", label).

(** The element of the list comprehension of [_generate_categories]. *)
Definition category_name (raw_category : string) : string :=
  Py.join " " (map Py.title (Py.split raw_category "_")).

(** [anns_dp] is what the annotation resource loads, [default_config]
    is [self.default_config], and [set_iter] is the order in which the
    set of pairs is iterated. *)
Definition _generate_categories
    (set_iter : list (string * string) -> list (string * string))
    (anns_dp : IterDataPipe entry) (default_config : DatasetConfig)
  : result (list string) :=
  let config := default_config in
  let dp := anns_dp in
  let dp := Filter dp _filter_split_and_classification_anns in
  let dp := Filter dp (path_comparator pathlib.name (split config ++ ".txt")) in
  let dp := CSVDictParser dp ["image_id"; "label"] " " in
  raw_categories_and_labels ←
    Py.collect raw_category_and_label (yielded dp) (raised dp);
  sorted ← Py.sorted (set_iter raw_categories_and_labels)
              (fun raw_category_and_label => Py.int raw_category_and_label.2);
  unpacked ← Py.unzip2 sorted;
  let raw_categories := unpacked.1 in
  mret (map category_name raw_categories).

End Dataset.
End OxfordIITPet.


(** ** Vocabulary of the statements *)

(** The species string of a species code. *)
Definition species_of (s : string) : string :=
  if String.eqb s "1" then "cat" else "dog".

(** The field names [_make_datapipe] hands to the parser. *)
Definition fieldnames : list string := ["image_id"; "label"; "species"].

(** The lines of the classification list of the split, in the order
    the parser reads them. *)
Definition classification_lines (anns_dp : IterDataPipe entry)
    (config : OxfordIITPet.DatasetConfig) : list string :=
  flat_map (fun data : entry => datapipes.readlines data.2)
    (List.filter
       (internal.path_comparator pathlib.name (OxfordIITPet.split config ++ ".txt"))
       (List.filter (fun a => bool_decide (OxfordIITPet._classify_anns a = Some 0))
          (yielded anns_dp))).

(** A raw-entry sequence as a datapipe that ends normally. *)
Definition of_list {A : Type} (entries : list A) : IterDataPipe A :=
  mkDataPipe entries None.

(** An annotation entry that one of the two annotation streams of
    [_make_datapipe] keeps: the classification list of the split, or a
    mask that the segmentation filter accepts. *)
Definition relevant_annotation (config : OxfordIITPet.DatasetConfig)
    (data : entry) : bool :=
  bool_decide (OxfordIITPet._classify_anns data = Some 0)
  && internal.path_comparator pathlib.name (OxfordIITPet.split config ++ ".txt") data
  || bool_decide (OxfordIITPet._classify_anns data = Some 1)
     && OxfordIITPet._filter_segmentations data.

(** Every underscore replaced by a space. *)
Fixpoint underscores_to_spaces (s : string) : string :=
  match s with
  | EmptyString => EmptyString
  | String c s' =>
      String (if Ascii.eqb c "_" then " "%char else c) (underscores_to_spaces s')
  end.

(** What [title] makes of one character, after a letter or not. *)
Definition title_char (c : ascii) (previous_is_cased : bool) : ascii :=
  if Py.islower c then (if previous_is_cased then c else Py.upper c)
  else if Py.isupper c then (if previous_is_cased then Py.lower c else c)
  else c.

Definition is_cased (c : ascii) : bool := Py.islower c || Py.isupper c.

(** The order of decorated entries by key. *)
Definition key_le {A : Type} (x y : Z * A) : Prop := x.1 <= y.1.
Definition key_lt {A : Type} (x y : Z * A) : Prop := x.1 < y.1.

(** The key of an entry, where it has one. *)
Definition key_or_zero {A : Type} (key : A -> result Z) (a : A) : Z :=
  match key a with
  | Ok k => k
  | Raise _ => 0
  end.

(** What [_generate_categories] makes of the rows it has read. *)
Definition categories_from
    (set_iter : list (string * string) -> list (string * string))
    (rows : IterDataPipe (gmap string string)) : result (list string) :=
  raw_categories_and_labels ←
    Py.collect OxfordIITPet.raw_category_and_label (yielded rows) (raised rows);
  sorted ← Py.sorted (set_iter raw_categories_and_labels)
              (fun raw_category_and_label => Py.int raw_category_and_label.2);
  unpacked ← Py.unzip2 sorted;
  mret (map OxfordIITPet.category_name unpacked.1).

(** The record [_make_datapipe] gets for a well-formed line. *)
Definition record_of_line (line : string) : gmap string string :=
  datapipes.dict_zip fieldnames (datapipes.split_fields " " line).

(** A line with the right field count. *)
Definition well_formed_line (line : string) : Prop :=
  length (datapipes.split_fields " " line) = length datapipes.line_fields.

(** * Properties *)

(** ** Strings *)

Section StringFacts.
Local Arguments String.append !_ _ / : simpl nomatch.

Lemma startswith_spec (s prefix : string) :
  Py.startswith s prefix = true <-> exists rest, s = prefix ++ rest.
Proof.
  revert s. induction prefix as [|a prefix IH]; intros s; simpl.
  - split; [intros _; by exists s | done].
  - destruct s as [|b s].
    + split; [done | intros [rest H]; discriminate H].
    + destruct (Ascii.eqb_spec a b) as [->|Hne].
      * rewrite IH. split; intros [rest H]; exists rest.
        -- by rewrite H.
        -- by injection H.
      * split; [done | intros [rest H]; injection H; congruence].
Qed.

Lemma take_drop (n : nat) (s : string) : Py.take n s ++ Py.drop n s = s.
Proof.
  revert s. induction n as [|n IH]; intros [|a s]; simpl; try done.
  by rewrite IH.
Qed.

Lemma drop_app_length (x y : string) : Py.drop (String.length x) (x ++ y) = y.
Proof. induction x as [|a x IH]; simpl; [by destruct y | done]. Qed.

Lemma length_app (x y : string) :
  String.length (x ++ y) = (String.length x + String.length y)%nat.
Proof. induction x as [|a x IH]; simpl; [done | by rewrite IH]. Qed.

Lemma length_take (n : nat) (s : string) :
  (n <= String.length s)%nat -> String.length (Py.take n s) = n.
Proof.
  revert s. induction n as [|n IH]; intros [|a s] Hn; simpl in *; try lia.
  rewrite IH; lia.
Qed.

(** The last occurrence of [c] in [x ++ c :: t], when [t] has none. *)
Lemma rfind_app (x t : string) (c : ascii) :
  Py.rfind t c = -1 -> Py.rfind (x ++ String c t) c = Py.len x.
Proof.
  intros Ht. unfold Py.len. induction x as [|a x IH]; simpl.
  - rewrite Ht. simpl. by rewrite Ascii.eqb_refl.
  - rewrite IH. destruct (Z.leb_spec 0 (Z.of_nat (String.length x))); lia.
Qed.

Lemma app_empty_r (s : string) : s ++ "" = s.
Proof. induction s as [|a s IH]; simpl; [done | by rewrite IH]. Qed.

Lemma endswith_app_l (x y z : string) :
  Py.endswith y z = true -> Py.endswith (x ++ y) z = true.
Proof.
  intros Hy. induction x as [|a x IH]; simpl; [done|].
  rewrite IH. match goal with |- (if ?b then _ else _) = _ => by destruct b end.
Qed.

End StringFacts.

(** ** Paths *)

Section PathFacts.
Import pathlib.

(** A name is its stem followed by its suffix. *)
Lemma stem_suffix (p : Path) : name p = stem p ++ suffix p.
Proof.
  unfold stem, suffix, Py.slice_to, Py.slice_from.
  destruct (_ && _); [by rewrite take_drop | by rewrite app_empty_r].
Qed.

(** The suffix is [ext], a dot followed by dot-free characters, exactly
    when the name is a non-empty stem followed by [ext]. *)
Lemma suffix_spec (p : Path) (ext : string) :
  ext <> "" -> Py.rfind ext "." = -1 ->
  suffix p = String "." ext <->
  exists x, x <> "" /\ name p = x ++ String "." ext.
Proof.
  intros Hext Hdot. split.
  - intros H. pose proof (stem_suffix p) as Hn.
    exists (stem p). split; [|by rewrite <- H].
    unfold suffix, stem in *.
    destruct (_ && _) eqn:Hc; [|discriminate H].
    apply andb_true_iff in Hc as [Hi Hj].
    apply Z.ltb_lt in Hi. apply Z.ltb_lt in Hj.
    intros Hx. apply (f_equal String.length) in Hx.
    unfold Py.slice_to, Py.len in *. rewrite length_take in Hx; simpl in Hx; lia.
  - intros (x & Hx & Hn). unfold suffix. rewrite Hn.
    rewrite rfind_app by done.
    assert (0 < Py.len x) as Hpos.
    { unfold Py.len. destruct x; simpl; [done | lia]. }
    assert (Py.len x < Py.len (x ++ String "." ext) - 1) as Hlt.
    { unfold Py.len. rewrite length_app. destruct ext; simpl; [done | lia]. }
    apply Z.ltb_lt in Hpos. apply Z.ltb_lt in Hlt. rewrite Hpos, Hlt. simpl.
    unfold Py.slice_from, Py.len. rewrite Nat2Z.id. apply drop_app_length.
Qed.

End PathFacts.

(** ** The entry predicates *)

Section Predicates.
Import pathlib datapipes OxfordIITPet.

Lemma filter_filter_implied {A : Type} (f g : A -> bool) (l : list A) :
  (forall a, f a = true -> g a = true) ->
  List.filter f (List.filter g l) = List.filter f l.
Proof.
  intros Himp. induction l as [|a l IH]; simpl; [done|].
  destruct (g a) eqn:Hg; simpl.
  - by rewrite IH.
  - destruct (f a) eqn:Hf; [|done].
    apply Himp in Hf. congruence.
Qed.

Lemma classify_anns_eq (data : entry) :
  _classify_anns data =
    let parent_name := name (parent (parse data.1)) in
    if decide (parent_name = "annotations") then Some 0
    else if decide (parent_name = "trimaps") then Some 1
    else None.
Proof.
  unfold _classify_anns. cbv zeta.
  destruct (decide _) as [Ha|Ha].
  - by rewrite Ha, lookup_insert_eq.
  - rewrite lookup_insert_ne by done.
    destruct (decide _) as [Ht|Ht].
    + by rewrite Ht, lookup_singleton_eq.
    + by rewrite lookup_singleton_ne.
Qed.

(** Entries that the classifier tags none reach neither child of the
    demultiplexer. *)
Lemma demux_drops_none (dp : IterDataPipe entry) (i : Z) :
  Demultiplexer (Filter dp (fun d => bool_decide (_classify_anns d <> None)))
    2 _classify_anns i
  = Demultiplexer dp 2 _classify_anns i.
Proof.
  unfold Demultiplexer, Filter. simpl.
  destruct (_ && _); [|done]. f_equal.
  apply filter_filter_implied. intros a Ha.
  apply bool_decide_eq_true in Ha. apply bool_decide_eq_true. congruence.
Qed.

End Predicates.

(** C6. The annotation classifier returns 0 for an entry whose path has
    parent directory name "annotations", 1 for "trimaps" and none for any
    other parent name; the byte stream plays no part in the decision; and
    the entries tagged none are dropped without any signal: removing them
    from the annotation archive changes neither the samples nor the
    outcome of the pipeline. *)
Theorem classify_anns_by_parent_name (data : entry) :
  let parent_name := pathlib.name (pathlib.parent (pathlib.parse data.1)) in
  OxfordIITPet._classify_anns data =
    (if decide (parent_name = "annotations") then Some 0
     else if decide (parent_name = "trimaps") then Some 1
     else None)
  /\ (forall content : buffer,
        OxfordIITPet._classify_anns (data.1, content)
        = OxfordIITPet._classify_anns data)
  /\ (forall (Tensor : Type) (categories : list string)
        (images_dp anns_dp : IterDataPipe entry)
        (config : OxfordIITPet.DatasetConfig)
        (decoder : option (buffer -> result Tensor)),
        OxfordIITPet._make_datapipe categories
          (images_dp,
           datapipes.Filter anns_dp
             (fun d => bool_decide (OxfordIITPet._classify_anns d <> None)))
          config decoder
        = OxfordIITPet._make_datapipe categories (images_dp, anns_dp) config decoder).
Proof.
  cbv zeta. split; [apply classify_anns_eq|]. split.
  - intros content. by rewrite !classify_anns_eq.
  - intros. unfold OxfordIITPet._make_datapipe.
    by rewrite !demux_drops_none.
Qed.

(** C8. The segmentation filter rejects an entry exactly when the first
    character of its file name (the last component of its path) is a
    dot; every other entry is kept. *)
Theorem filter_segmentations_rejects_dot_names (data : entry) :
  (OxfordIITPet._filter_segmentations data = false <->
   exists rest, pathlib.name (pathlib.parse data.1) = String "." rest)
  /\ (OxfordIITPet._filter_segmentations data = true <->
      ~ exists rest, pathlib.name (pathlib.parse data.1) = String "." rest).
Proof.
  unfold OxfordIITPet._filter_segmentations.
  pose proof (startswith_spec (pathlib.name (pathlib.parse data.1)) ".") as H.
  destruct (Py.startswith _ _); simpl; split; split; try done.
  - intros _. by apply H.
  - intros Hn. destruct Hn. by apply H.
  - intros Hr. apply H in Hr. done.
  - intros _ Hr. apply H in Hr. done.
Qed.

(** C5, as stated, fails: the path "images/.jpg" ends in ".jpg" and is
    rejected, and "cat.jpg/" is accepted although the string does not
    end in ".jpg". *)
Lemma filter_images_not_string_suffix :
  ~ (forall data : entry,
       OxfordIITPet._filter_images data = true <-> Py.endswith data.1 ".jpg" = true).
Proof.
  intros H. destruct (H ("images/.jpg", "")) as [_ Hback].
  discriminate (Hback eq_refl).
Qed.

(** C5, amended. The image filter accepts an entry exactly when the file
    name of its path (the last component, as pathlib parses it) is a
    non-empty stem followed by ".jpg"; the match is case-sensitive (a
    name that ends in ".JPG" is rejected), and every other entry is
    dropped. *)
Theorem filter_images_by_suffix (data : entry) :
  (OxfordIITPet._filter_images data = true <->
   exists x, x <> "" /\ pathlib.name (pathlib.parse data.1) = x ++ ".jpg")
  /\ (forall x, pathlib.name (pathlib.parse data.1) = x ++ ".JPG" ->
       OxfordIITPet._filter_images data = false).
Proof.
  unfold OxfordIITPet._filter_images. split.
  - rewrite String.eqb_eq. by apply (suffix_spec _ "jpg").
  - intros x Hx. apply String.eqb_neq. destruct x as [|a x].
    + unfold pathlib.suffix. rewrite Hx. done.
    + assert (pathlib.suffix (pathlib.parse data.1) = ".JPG") as ->; [|done].
      apply (suffix_spec _ "JPG"); [done..|]. by exists (String a x).
Qed.

(** ** The label decoder *)

Section LabelDecoder.
Import OxfordIITPet.

(** A record with a [label] field that reads as the integer [n] and a
    [species] field decodes as the category lookup at [n - 1] decides. *)
Lemma decode_classification_eq (categories : list string)
    (data : gmap string string) (l s : string) (n : Z) :
  data !! "label" = Some l -> Py.int l = Ok n -> data !! "species" = Some s ->
  _decode_classification_data categories data =
    match Py.getitem categories (n - 1) with
    | Ok c => Ok (Classification.mk (mkLabel (n - 1) c) (species_of s))
    | Raise e => Raise e
    end.
Proof.
  intros Hl Hn Hs. unfold _decode_classification_data, Py.dict_getitem.
  rewrite Hl. simpl. rewrite Hn. simpl.
  destruct (Py.getitem _ _); simpl; [|done].
  by rewrite Hs.
Qed.

Lemma getitem_in_range {A : Type} (seq : list A) (i : Z) :
  0 <= i < Z.of_nat (length seq) ->
  exists x, seq !! Z.to_nat i = Some x /\ Py.getitem seq i = Ok x.
Proof.
  intros Hi. unfold Py.getitem.
  destruct (Z.ltb_spec i 0); [lia|].
  destruct (Z.ltb_spec i 0); [lia|].
  destruct (Z.leb_spec (Z.of_nat (length seq)) i); [lia|]. simpl.
  destruct (lookup_lt_is_Some_2 seq (Z.to_nat i)) as [x Hx]; [lia|].
  exists x. by rewrite Hx.
Qed.

Lemma getitem_negative {A : Type} (seq : list A) (i : Z) :
  - Z.of_nat (length seq) <= i < 0 ->
  exists x, seq !! Z.to_nat (i + Z.of_nat (length seq)) = Some x
            /\ Py.getitem seq i = Ok x.
Proof.
  intros Hi. unfold Py.getitem.
  destruct (Z.ltb_spec i 0); [|lia].
  destruct (Z.ltb_spec (i + Z.of_nat (length seq)) 0); [lia|].
  destruct (Z.leb_spec (Z.of_nat (length seq)) (i + Z.of_nat (length seq))); [lia|].
  simpl.
  destruct (lookup_lt_is_Some_2 seq (Z.to_nat (i + Z.of_nat (length seq))))
    as [x Hx]; [lia|].
  exists x. by rewrite Hx.
Qed.

Lemma getitem_raises {A : Type} (seq : list A) (i : Z) :
  i < - Z.of_nat (length seq) \/ Z.of_nat (length seq) <= i ->
  Py.getitem seq i = Raise IndexError.
Proof.
  intros Hi. unfold Py.getitem.
  destruct (Z.ltb_spec i 0).
  - destruct (Z.ltb_spec (i + Z.of_nat (length seq)) 0); [done | lia].
  - destruct (Z.ltb_spec i 0); [lia|].
    destruct (Z.leb_spec (Z.of_nat (length seq)) i); [done | lia].
Qed.

Lemma lookup_last {A : Type} (seq : list A) (x : A) :
  seq !! Z.to_nat (-1 + Z.of_nat (length seq)) = Some x -> last seq = Some x.
Proof.
  intros Hx. rewrite last_lookup. rewrite <- Hx. f_equal.
  destruct seq; simpl length in *; [done | lia].
Qed.

End LabelDecoder.

(** ** Datapipe stages *)

Section StageFacts.
Import datapipes.
Context {A B : Type}.

Lemma elem_of_List_filter (f : A -> bool) (l : list A) (a : A) :
  a ∈ List.filter f l <-> a ∈ l /\ f a = true.
Proof. rewrite !list_elem_of_In. apply filter_In. Qed.

Lemma map_items_yielded (fn : A -> result B) (source : list A)
    (tail : option exn) (b : B) :
  b ∈ yielded (map_items fn source tail) ->
  exists a, a ∈ source /\ fn a = Ok b.
Proof.
  induction source as [|a source IH]; simpl; [by intros ?%elem_of_nil|].
  destruct (fn a) as [b'|e] eqn:Hfn; simpl; [|by intros ?%elem_of_nil].
  intros [->|Hin]%elem_of_cons.
  - exists a. split; [left | done].
  - destruct (IH Hin) as (a' & Ha' & Hfn'). exists a'. split; [by right | done].
Qed.

(** An exception raised upstream is never lost by a map stage. *)
Lemma map_items_raised (fn : A -> result B) (source : list A) (tail : option exn) :
  is_Some tail -> is_Some (raised (map_items fn source tail)).
Proof.
  intros Htail. induction source as [|a source IH]; simpl; [done|].
  destruct (fn a); simpl; [done | by eexists].
Qed.

(** With no exception upstream, a map stage raises exactly the first
    exception of its function. *)
Lemma map_items_all_ok (fn : A -> result B) (source : list A) (tail : option exn) :
  (forall a, a ∈ source -> exists b, fn a = Ok b) ->
  raised (map_items fn source tail) = tail.
Proof.
  induction source as [|a source IH]; intros Hok; simpl; [done|].
  destruct (Hok a) as [b Hb]; [left|]. rewrite Hb. simpl.
  apply IH. intros a' Ha'. apply Hok. by right.
Qed.

Lemma pop_key_Some (ref_key_fn : B -> string) (key : string)
    (pending rest : list B) (b : B) :
  pop_key ref_key_fn key pending = Some (b, rest) ->
  b ∈ pending /\ ref_key_fn b = key /\ forall x, x ∈ rest -> x ∈ pending.
Proof.
  revert rest. induction pending as [|b' pending IH]; intros rest; simpl; [done|].
  destruct (String.eqb_spec (ref_key_fn b') key) as [Hk|Hk].
  - intros [= -> ->]. split; [left|]. split; [done|]. intros x Hx. by right.
  - destruct (pop_key ref_key_fn key pending) as [[x rest']|]; [|done].
    intros [= -> <-]. destruct (IH rest' eq_refl) as (Hb & Hkey & Hrest).
    split; [by right|]. split; [done|].
    intros y [->|Hy]%elem_of_cons; [left | right; by apply Hrest].
Qed.

(** Every pair out of a join is a source entry with a pending entry of
    the same key. *)
Lemma zip_items_yielded (key_fn : A -> result string) (ref_key_fn : B -> string)
    (source : list A) (tail : option exn) (pending : list B)
    (ref_tail : option exn) (a : A) (b : B) :
  (a, b) ∈ yielded (zip_items key_fn ref_key_fn source tail pending ref_tail) ->
  a ∈ source /\ b ∈ pending /\ key_fn a = Ok (ref_key_fn b).
Proof.
  revert pending. induction source as [|a' source IH]; intros pending; simpl;
    [by intros ?%elem_of_nil|].
  destruct (key_fn a') as [key|e] eqn:Hkey; simpl; [|by intros ?%elem_of_nil].
  destruct (pop_key ref_key_fn key pending) as [[b' pending']|] eqn:Hpop; simpl.
  - apply pop_key_Some in Hpop as (Hb' & Hk & Hrest).
    intros [[= -> ->]|Hin]%elem_of_cons.
    + split; [left|]. split; [done|]. by rewrite Hkey, Hk.
    + destruct (IH _ Hin) as (Ha & Hb & Hab).
      split; [by right|]. split; [by apply Hrest | done].
  - destruct ref_tail; simpl; [by intros ?%elem_of_nil|].
    intros Hin. destruct (IH _ Hin) as (Ha & Hb & Hab).
    split; [by right | done].
Qed.

(** An exception raised by the source side is never lost by a join. *)
Lemma zip_items_raised (key_fn : A -> result string) (ref_key_fn : B -> string)
    (source : list A) (tail : option exn) (pending : list B)
    (ref_tail : option exn) :
  is_Some tail ->
  is_Some (raised (zip_items key_fn ref_key_fn source tail pending ref_tail)).
Proof.
  intros Htail. revert pending.
  induction source as [|a source IH]; intros pending; simpl; [done|].
  destruct (key_fn a); simpl; [|by eexists].
  destruct (pop_key _ _ _) as [[b pending']|]; simpl; [done|].
  destruct ref_tail; simpl; [by eexists | done].
Qed.

(** A join over a reference side that ends normally raises nothing of
    its own, whatever is missing on either side. *)
Lemma zip_items_no_raise (key_fn : A -> result string) (ref_key_fn : B -> string)
    (source : list A) (tail : option exn) (pending : list B) :
  (forall a, a ∈ source -> exists key, key_fn a = Ok key) ->
  raised (zip_items key_fn ref_key_fn source tail pending None) = tail.
Proof.
  revert pending. induction source as [|a source IH]; intros pending Hkeys;
    simpl; [done|].
  destruct (Hkeys a) as [key Hkey]; [left|]. rewrite Hkey.
  assert (forall a', a' ∈ source -> exists key, key_fn a' = Ok key) as Hkeys'.
  { intros a' Ha'. apply Hkeys. by right. }
  destruct (pop_key _ _ _) as [[b pending']|]; simpl; by apply IH.
Qed.

End StageFacts.

(** ** The pipeline *)

Section PipelineFacts.
Import pathlib datapipes internal OxfordIITPet.
Context {Tensor : Type}.
Implicit Types (categories : list string) (config : DatasetConfig).
Implicit Types (decoder : option (buffer -> result Tensor)).
Implicit Types (images_dp anns_dp : IterDataPipe entry).

Lemma make_datapipe_stages categories images_dp anns_dp config decoder :
  _make_datapipe categories (images_dp, anns_dp) config decoder
  = Mapper (joined_stage (images_dp, anns_dp) config)
      (_collate_and_decode_sample categories decoder).
Proof. reflexivity. Qed.

Lemma decode_classification_Ok categories (data : gmap string string)
    (c : Classification.t) :
  _decode_classification_data categories data = Ok c ->
  exists l n s cat,
    data !! "label" = Some l /\ Py.int l = Ok n
    /\ Py.getitem categories (n - 1) = Ok cat
    /\ data !! "species" = Some s
    /\ c = Classification.mk (mkLabel (n - 1) cat) (species_of s).
Proof.
  unfold _decode_classification_data, Py.dict_getitem.
  destruct (data !! "label") as [l|]; simpl; [|done].
  destruct (Py.int l) as [n|] eqn:Hn; simpl; [|done].
  destruct (Py.getitem _ _) as [cat|] eqn:Hcat; simpl; [|done].
  destruct (data !! "species") as [s|]; simpl; [|done].
  intros [= <-]. by exists l, n, s, cat.
Qed.

Lemma collate_Ok categories decoder (data : gmap string string)
    (seg img : entry) (s : Sample) :
  _collate_and_decode_sample categories decoder ((data, seg), img) = Ok s ->
  exists c sf imf,
    _decode_classification_data categories data = Ok c
    /\ decode decoder seg.2 = Ok sf /\ decode decoder img.2 = Ok imf
    /\ s = mkSample (Classification.label c) (Classification.species c)
             seg.1 sf img.1 imf.
Proof.
  destruct seg as [sp sb], img as [ip ib]. unfold _collate_and_decode_sample.
  destruct (_decode_classification_data _ _) as [c|]; simpl; [|done].
  destruct (decode decoder sb) as [sf|]; simpl; [|done].
  destruct (decode decoder ib) as [imf|]; simpl; [|done].
  intros [= <-]. by exists c, sf, imf.
Qed.

(** An exception of the label decoder leaves [_collate_and_decode_sample]
    as it is. *)
Lemma collate_Raise categories decoder (data : gmap string string)
    (seg img : entry) (e : exn) :
  _decode_classification_data categories data = Raise e ->
  _collate_and_decode_sample categories decoder ((data, seg), img) = Raise e.
Proof.
  destruct seg as [sp sb], img as [ip ib]. unfold _collate_and_decode_sample.
  by intros ->.
Qed.

(** Where every sample of the pipeline comes from. *)
Lemma make_datapipe_yielded categories images_dp anns_dp config decoder
    (s : Sample) :
  s ∈ yielded (_make_datapipe categories (images_dp, anns_dp) config decoder) ->
  exists data seg img,
    data ∈ yielded (classification_stage anns_dp config)
    /\ seg ∈ yielded (segmentation_stage anns_dp)
    /\ img ∈ yielded (Filter images_dp _filter_images)
    /\ data !! "image_id" = Some (stem (parse seg.1))
    /\ data !! "image_id" = Some (stem (parse img.1))
    /\ _collate_and_decode_sample categories decoder ((data, seg), img) = Ok s.
Proof.
  rewrite make_datapipe_stages. unfold Mapper. intros Hs.
  apply map_items_yielded in Hs as ([[data seg] img] & Hin & Hs).
  unfold joined_stage, IterKeyZipper in Hin.
  apply zip_items_yielded in Hin as (Hin & Himg & Hkimg).
  apply zip_items_yielded in Hin as (Hdata & Hseg & Hkseg).
  exists data, seg, img. simpl in *.
  unfold getitem, Py.dict_getitem, path_accessor in *.
  destruct (data !! "image_id") as [k|]; [|done].
  injection Hkimg as ->. injection Hkseg as Hk.
  repeat split; try done. by rewrite Hk.
Qed.

End PipelineFacts.

(** C7. A record whose label field reads as an integer [n] with
    [-len <= n - 1 < len] and that has a species field decodes, with the
    species "cat" when the species field is the string "1" and "dog" for
    every other string.  No species code raises: with any string in the
    species field of such a record the decoder returns, and for any
    record whatever, what the decoder raises does not depend on the
    species code.  Hence the species of every sample the pipeline yields
    is "cat" or "dog". *)
Theorem species_is_cat_or_dog (Tensor : Type) (categories : list string)
    (data : gmap string string) (l s : string) (n : Z) :
  data !! "label" = Some l -> Py.int l = Ok n ->
  - Z.of_nat (length categories) <= n - 1 < Z.of_nat (length categories) ->
  data !! "species" = Some s ->
  (exists cat,
     OxfordIITPet._decode_classification_data categories data
     = Ok (OxfordIITPet.Classification.mk (OxfordIITPet.mkLabel (n - 1) cat)
             (if String.eqb s "1" then "cat" else "dog")))
  /\ (forall code : string,
        exists cat,
          OxfordIITPet._decode_classification_data categories
            (<["species" := code]> data)
          = Ok (OxfordIITPet.Classification.mk (OxfordIITPet.mkLabel (n - 1) cat)
                  (if String.eqb code "1" then "cat" else "dog")))
  /\ (forall (record : gmap string string) (code : string),
        OxfordIITPet._decode_classification_data categories
          (<["species" := code]> record)
        = (fun c => OxfordIITPet.Classification.mk
                      (OxfordIITPet.Classification.label c)
                      (if String.eqb code "1" then "cat" else "dog"))
            <$> OxfordIITPet._decode_classification_data categories
                  (<["species" := "2"]> record))
  /\ (forall (images_dp anns_dp : IterDataPipe entry)
        (config : OxfordIITPet.DatasetConfig)
        (decoder : option (buffer -> result Tensor))
        (sample : OxfordIITPet.Sample (Tensor := Tensor)),
        sample ∈ yielded (OxfordIITPet._make_datapipe categories
                            (images_dp, anns_dp) config decoder) ->
        OxfordIITPet.species sample = "cat" \/ OxfordIITPet.species sample = "dog").
Proof.
  intros Hl Hn Hrange Hs.
  assert (exists cat, Py.getitem categories (n - 1) = Ok cat) as [cat Hcat].
  { destruct (Z_lt_dec (n - 1) 0).
    - destruct (getitem_negative categories (n - 1)) as (x & _ & Hx); [lia|by exists x].
    - destruct (getitem_in_range categories (n - 1)) as (x & _ & Hx); [lia|by exists x]. }
  split; [|split; [|split]].
  - exists cat. rewrite (decode_classification_eq _ _ _ _ _ Hl Hn Hs).
    by rewrite Hcat.
  - intros code. exists cat.
    rewrite (decode_classification_eq _ (<["species" := code]> data) l code n);
      [by rewrite Hcat| |done|by rewrite lookup_insert_eq].
    by rewrite lookup_insert_ne.
  - intros record code.
    unfold OxfordIITPet._decode_classification_data, Py.dict_getitem.
    assert (forall s', <["species" := s']> record !! "label" = record !! "label") as Hlabel.
    { intros s'. by apply lookup_insert_ne. }
    rewrite !Hlabel.
    destruct (record !! "label") as [l'|]; simpl; [|done].
    destruct (Py.int l') as [n'|]; simpl; [|done].
    rewrite !lookup_insert_eq.
    by destruct (Py.getitem categories (n' - 1)).
  - intros images_dp anns_dp config decoder sample Hsample.
    apply make_datapipe_yielded in Hsample
      as (record & seg & img & _ & _ & _ & _ & _ & Hsample).
    apply collate_Ok in Hsample as (c & sf & imf & Hc & _ & _ & ->). simpl.
    apply decode_classification_Ok in Hc as (l' & n' & s' & cat' & _ & _ & _ & _ & ->).
    simpl. unfold species_of. destruct (String.eqb s' "1"); [by left | by right].
Qed.

(** The species code "7": a record, and the pipeline on its line. *)
Lemma species_is_cat_or_dog_witness :
  OxfordIITPet._decode_classification_data ["Abyssinian"] (record_of_line "catA 1 7 1")
  = Ok (OxfordIITPet.Classification.mk (OxfordIITPet.mkLabel 0 "Abyssinian") "dog")
  /\ OxfordIITPet.species <$>
       yielded (OxfordIITPet._make_datapipe (Tensor := unit) ["Abyssinian"]
                  (of_list [("images/catA.jpg", "JPG")],
                   of_list [("annotations/trainval.txt", "catA 1 7 1");
                            ("annotations/trimaps/catA.png", "PNG")])
                  (OxfordIITPet.mkConfig "trainval") None)
     = ["dog"]
  /\ raised (OxfordIITPet._make_datapipe (Tensor := unit) ["Abyssinian"]
               (of_list [("images/catA.jpg", "JPG")],
                of_list [("annotations/trainval.txt", "catA 1 7 1");
                         ("annotations/trimaps/catA.png", "PNG")])
               (OxfordIITPet.mkConfig "trainval") None)
     = None.
Proof.
  destruct (species_is_cat_or_dog unit ["Abyssinian"] (record_of_line "catA 1 7 1")
              "1" "7" 1 eq_refl eq_refl) as ([cat Hdec] & _).
  - simpl. lia.
  - reflexivity.
  - split; [|split; reflexivity].
    rewrite Hdec. vm_compute in Hdec. injection Hdec as <-. reflexivity.
Defined.

(** C10. A record whose label field reads as an integer [n] with
    [-len <= n - 1 < 0] does not raise: the lookup wraps around and takes
    the category at [len + (n - 1)].  For the label field "0" the index
    is -1 and the category is the last entry of the table. *)
Theorem negative_label_index_wraps (categories : list string)
    (data : gmap string string) (l s : string) (n : Z) :
  data !! "label" = Some l -> Py.int l = Ok n -> data !! "species" = Some s ->
  - Z.of_nat (length categories) <= n - 1 < 0 ->
  exists c,
    categories !! Z.to_nat (n - 1 + Z.of_nat (length categories)) = Some c
    /\ OxfordIITPet._decode_classification_data categories data
       = Ok (OxfordIITPet.Classification.mk
               (OxfordIITPet.mkLabel (n - 1) c)
               (if String.eqb s "1" then "cat" else "dog"))
    /\ (l = "0" -> n - 1 = -1 /\ last categories = Some c).
Proof.
  intros Hl Hn Hs Hrange.
  destruct (getitem_negative categories (n - 1) Hrange) as (c & Hc & Hget).
  exists c. split; [done|]. split.
  - rewrite (decode_classification_eq _ _ _ _ _ Hl Hn Hs). by rewrite Hget.
  - intros ->. injection Hn as <-. split; [done|]. by apply lookup_last.
Qed.

(** The label field "0" with a table of two categories. *)
Lemma negative_label_index_wraps_witness :
  exists c,
    last ["Abyssinian"; "Bengal"] = Some c
    /\ OxfordIITPet._decode_classification_data ["Abyssinian"; "Bengal"]
         (datapipes.dict_zip ["image_id"; "label"; "species"] ["catA"; "0"; "1"])
       = Ok (OxfordIITPet.Classification.mk (OxfordIITPet.mkLabel (-1) c) "cat").
Proof.
  destruct (negative_label_index_wraps ["Abyssinian"; "Bengal"]
              (datapipes.dict_zip ["image_id"; "label"; "species"] ["catA"; "0"; "1"])
              "0" "1" 0 eq_refl eq_refl eq_refl) as (c & _ & Hdec & Hlast).
  - simpl. lia.
  - exists c. split; [by apply Hlast | exact Hdec].
Defined.

(** C4, as stated, fails: with the label field "0" the index is -1,
    which is no position of a one-entry table, and the decoder returns
    instead of raising. *)
Lemma label_index_minus_one_not_raised :
  ~ (forall (categories : list string) (data : gmap string string)
       (l : string) (n : Z),
       data !! "label" = Some l -> Py.int l = Ok n ->
       ~ (0 <= n - 1 < Z.of_nat (length categories)) ->
       exists e, OxfordIITPet._decode_classification_data categories data = Raise e).
Proof.
  intros H.
  destruct (H ["Abyssinian"]
              (datapipes.dict_zip ["image_id"; "label"; "species"] ["catA"; "0"; "1"])
              "0" 0 eq_refl eq_refl) as [e He].
  - simpl. lia.
  - vm_compute in He. discriminate He.
Qed.

(** C4, amended. With [label_idx = int(label) - 1]: for
    [0 <= label_idx < len] the decoder yields the category at
    [label_idx]; for [label_idx >= len] and for [label_idx < -len] it
    raises IndexError, which [_collate_and_decode_sample] does not catch
    and which ends the iteration of the pipeline's map stage.  The label
    field "37" yields the last entry of a table of length 37 and raises
    with a table of length 36. *)
Theorem label_index_out_of_range_raises (Tensor : Type)
    (categories : list string) (data : gmap string string)
    (l s : string) (n : Z) :
  data !! "label" = Some l -> Py.int l = Ok n -> data !! "species" = Some s ->
  let label_idx := n - 1 in
  let size := Z.of_nat (length categories) in
  let decoded := OxfordIITPet._decode_classification_data categories data in
  (0 <= label_idx < size ->
   exists c, categories !! Z.to_nat label_idx = Some c
     /\ decoded = Ok (OxfordIITPet.Classification.mk
                        (OxfordIITPet.mkLabel label_idx c)
                        (if String.eqb s "1" then "cat" else "dog")))
  /\ (label_idx < - size \/ size <= label_idx ->
      decoded = Raise IndexError
      /\ forall (decoder : option (buffer -> result Tensor)) (seg img : entry)
           (rest : list ((gmap string string * entry) * entry))
           (tail : option exn),
           OxfordIITPet._collate_and_decode_sample categories decoder
             ((data, seg), img) = Raise IndexError
           /\ datapipes.Mapper (mkDataPipe (((data, seg), img) :: rest) tail)
                (OxfordIITPet._collate_and_decode_sample categories decoder)
              = finish (Some IndexError))
  /\ (l = "37" -> size = 37 ->
      exists c, last categories = Some c
        /\ decoded = Ok (OxfordIITPet.Classification.mk
                           (OxfordIITPet.mkLabel 36 c)
                           (if String.eqb s "1" then "cat" else "dog")))
  /\ (l = "37" -> size = 36 -> decoded = Raise IndexError).
Proof.
  intros Hl Hn Hs label_idx size decoded.
  assert (decoded =
            match Py.getitem categories label_idx with
            | Ok c => Ok (OxfordIITPet.Classification.mk
                            (OxfordIITPet.mkLabel label_idx c) (species_of s))
            | Raise e => Raise e
            end) as Hdec.
  { apply (decode_classification_eq _ _ _ _ _ Hl Hn Hs). }
  assert (label_idx < - size \/ size <= label_idx -> decoded = Raise IndexError)
    as Hraise.
  { intros Hout. rewrite Hdec. by rewrite getitem_raises. }
  split; [|split; [|split]].
  - intros Hin. destruct (getitem_in_range categories label_idx Hin) as (c & Hc & Hget).
    exists c. split; [done|]. rewrite Hdec. by rewrite Hget.
  - intros Hout. split; [by apply Hraise|].
    intros decoder seg img rest tail.
    assert (OxfordIITPet._collate_and_decode_sample categories decoder
              ((data, seg), img) = Raise IndexError) as Hcol.
    { apply collate_Raise. by apply Hraise. }
    split; [done|]. unfold datapipes.Mapper.
    cbn [yielded raised datapipes.map_items]. by rewrite Hcol.
  - intros -> Hsize. vm_compute in Hn. injection Hn as <-.
    destruct (getitem_in_range categories 36) as (c & Hc & Hget); [fold size; lia|].
    exists c. split.
    + rewrite last_lookup. rewrite <- Hc. f_equal. lia.
    + rewrite Hdec. change label_idx with 36. by rewrite Hget.
  - intros -> Hsize. vm_compute in Hn. injection Hn as <-.
    apply Hraise. unfold label_idx. lia.
Qed.

(** The label field "3" with a table of two categories. *)
Lemma label_index_out_of_range_raises_witness :
  let data := datapipes.dict_zip ["image_id"; "label"; "species"] ["catA"; "3"; "2"] in
  OxfordIITPet._decode_classification_data ["Abyssinian"; "Bengal"] data
    = Raise IndexError
  /\ datapipes.Mapper
       (mkDataPipe [((data, ("trimaps/catA.png", "")), ("catA.jpg", ""))] None)
       (OxfordIITPet._collate_and_decode_sample (Tensor := unit)
          ["Abyssinian"; "Bengal"] None)
     = finish (Some IndexError).
Proof.
  intros data.
  destruct (label_index_out_of_range_raises unit ["Abyssinian"; "Bengal"] data
              "3" "2" 3 eq_refl eq_refl eq_refl) as (_ & Hout & _).
  destruct Hout as [Hdec Hmap]; [right; simpl; lia|].
  split; [exact Hdec|].
  exact (proj2 (Hmap None ("trimaps/catA.png", "") ("catA.jpg", "") [] None)).
Defined.

(** ** The classification list *)

Section ClassificationList.
Import pathlib datapipes internal OxfordIITPet.
Implicit Types (config : DatasetConfig) (anns_dp : IterDataPipe entry).

Lemma classification_stage_lines anns_dp config :
  classification_stage anns_dp config
  = map_items (parse_row fieldnames " ")
      (classification_lines anns_dp config) (raised anns_dp).
Proof. reflexivity. Qed.

(** A line with the four fields gives the record of the first three. *)
Lemma parse_row_well_formed (line : string) :
  well_formed_line line ->
  parse_row fieldnames " " line = Ok (record_of_line line)
  /\ exists f0 f1 f2 f3,
       split_fields " " line = [f0; f1; f2; f3]
       /\ record_of_line line !! "image_id" = Some f0
       /\ record_of_line line !! "label" = Some f1
       /\ record_of_line line !! "species" = Some f2.
Proof.
  unfold well_formed_line, parse_row, record_of_line. intros Hlen.
  rewrite Hlen, Nat.eqb_refl. split; [done|].
  destruct (split_fields " " line) as [|f0 [|f1 [|f2 [|f3 [|f4 rest]]]]];
    try discriminate Hlen.
  exists f0, f1, f2, f3. split; [done|].
  unfold dict_zip, fieldnames. cbn [zip zip_with fold_left fst snd].
  split; [|split].
  - by rewrite !lookup_insert_ne, lookup_insert_eq by discriminate.
  - by rewrite lookup_insert_ne, lookup_insert_eq by discriminate.
  - by rewrite lookup_insert_eq.
Qed.

Lemma parse_row_malformed (line : string) :
  ~ well_formed_line line -> parse_row fieldnames " " line = Raise MalformedLine.
Proof.
  unfold well_formed_line, parse_row. intros Hlen.
  by destruct (Nat.eqb_spec (length (split_fields " " line)) (length line_fields)).
Qed.

Lemma parse_row_Ok (line : string) (data : gmap string string) :
  parse_row fieldnames " " line = Ok data ->
  well_formed_line line /\ data = record_of_line line.
Proof.
  unfold well_formed_line, parse_row, record_of_line.
  destruct (Nat.eqb_spec (length (split_fields " " line)) (length line_fields));
    [|done].
  by intros [= <-].
Qed.

(** Every record of the classification stage has an [image_id]. *)
Lemma classification_stage_image_id anns_dp config (data : gmap string string) :
  data ∈ yielded (classification_stage anns_dp config) ->
  exists key, getitem "image_id" data = Ok key.
Proof.
  rewrite classification_stage_lines.
  intros (line & _ & Hrow)%map_items_yielded.
  apply parse_row_Ok in Hrow as [Hwf ->].
  destruct (parse_row_well_formed line Hwf) as (_ & f0 & _ & _ & _ & _ & Hid & _).
  exists f0. unfold getitem, Py.dict_getitem. by rewrite Hid.
Qed.

(** With no exception of the function, a map stage yields every image
    and ends as its source ends. *)
Lemma map_items_all {A B : Type} (fn : A -> result B) (g : A -> B)
    (source : list A) (tail : option exn) :
  Forall (fun x => fn x = Ok (g x)) source ->
  map_items fn source tail = mkDataPipe (g <$> source) tail.
Proof.
  induction 1 as [|x source Hx _ IH]; simpl; [done|]. by rewrite Hx, IH.
Qed.

(** A map stage ends as its source ends or with the exception its
    function raised on an item. *)
Lemma map_items_raised_cases {A B : Type} (fn : A -> result B)
    (source : list A) (tail : option exn) :
  raised (map_items fn source tail) = tail
  \/ exists a e, a ∈ source /\ fn a = Raise e
                 /\ raised (map_items fn source tail) = Some e.
Proof.
  induction source as [|a source IH]; simpl; [by left|].
  destruct (fn a) as [b|e] eqn:Hfn; simpl.
  - destruct IH as [IH|(a' & e & Ha' & Hfn' & IH)]; [by left|].
    right. exists a', e. split; [by right | done].
  - right. exists a, e. split; [left | done].
Qed.

(** The rows before the first malformed line are yielded, then the
    exception ends the iteration. *)
Lemma map_items_stops {A B : Type} (fn : A -> result B) (g : A -> B)
    (before after : list A) (a : A) (e : exn) (tail : option exn) :
  Forall (fun x => fn x = Ok (g x)) before -> fn a = Raise e ->
  map_items fn (before ++ a :: after)%list tail
  = mkDataPipe (g <$> before) (Some e).
Proof.
  intros Hbefore Ha. induction Hbefore as [|x before Hx _ IH]; simpl.
  - by rewrite Ha.
  - rewrite Hx, IH. done.
Qed.

End ClassificationList.

(** ** The joins *)

Section Joins.
Import pathlib datapipes internal OxfordIITPet.
Context {Tensor : Type}.
Implicit Types (categories : list string) (config : DatasetConfig).
Implicit Types (decoder : option (buffer -> result Tensor)).
Implicit Types (images anns : list entry).

(** Over raw-entry sequences the two joins raise nothing of their own:
    the joined stream ends as the parsed classification list ends. *)
Lemma joined_stage_raised images anns config :
  raised (joined_stage (of_list images, of_list anns) config)
  = raised (classification_stage (of_list anns) config).
Proof.
  unfold joined_stage, IterKeyZipper. simpl.
  rewrite zip_items_no_raise.
  - apply zip_items_no_raise. intros data Hdata.
    by apply (classification_stage_image_id (of_list anns) config).
  - intros [data seg] (Hdata & _ & _)%zip_items_yielded. simpl.
    by apply (classification_stage_image_id (of_list anns) config).
Qed.

(** A sample is never partial: it pairs one record of the classification
    list, one kept segmentation entry and one kept image entry that agree
    on the image id. *)
Lemma sample_is_complete categories images anns config decoder (s : Sample) :
  s ∈ yielded (_make_datapipe categories (of_list images, of_list anns) config decoder) ->
  exists data seg img,
    data ∈ yielded (classification_stage (of_list anns) config)
    /\ seg ∈ anns /\ _classify_anns seg = Some 1 /\ _filter_segmentations seg = true
    /\ img ∈ images /\ _filter_images img = true
    /\ data !! "image_id" = Some (stem (parse seg.1))
    /\ data !! "image_id" = Some (stem (parse img.1))
    /\ segmentation_path s = seg.1 /\ image_path s = img.1.
Proof.
  intros (data & seg & img & Hdata & Hseg & Himg & Hkseg & Hkimg & Hs)%make_datapipe_yielded.
  exists data, seg, img.
  apply elem_of_List_filter in Himg as [Himg Hfimg].
  apply elem_of_List_filter in Hseg as [Hseg Hfseg].
  apply elem_of_List_filter in Hseg as [Hseg Hcseg].
  apply bool_decide_eq_true in Hcseg.
  apply collate_Ok in Hs as (c & sf & imf & _ & _ & _ & ->).
  repeat split; done.
Qed.

End Joins.

(** C2. When no kept image entry has the path stem [id], the pipeline
    yields no sample for [id], and the joins raise nothing: the joined
    stream ends exactly as the parsed classification list ends, so with a
    well-formed list whose records all decode the pipeline ends normally.
    In general a sample is never partial: each one pairs a record of the
    split's classification list, a kept segmentation entry and a kept
    image entry that agree on the image id. *)
Theorem unmatched_ids_are_dropped (Tensor : Type) (categories : list string)
    (images anns : list entry) (config : OxfordIITPet.DatasetConfig)
    (decoder : option (buffer -> result Tensor)) (id : string) :
  (forall img, img ∈ images -> OxfordIITPet._filter_images img = true ->
     pathlib.stem (pathlib.parse img.1) <> id) ->
  let resource_dps := (of_list images, of_list anns) in
  let records := OxfordIITPet.classification_stage (of_list anns) config in
  let dp := OxfordIITPet._make_datapipe categories resource_dps config decoder in
  (forall s, s ∈ yielded dp ->
     pathlib.stem (pathlib.parse (OxfordIITPet.image_path s)) <> id
     /\ pathlib.stem (pathlib.parse (OxfordIITPet.segmentation_path s)) <> id)
  /\ raised (OxfordIITPet.joined_stage resource_dps config) = raised records
  /\ (raised records = None ->
      (forall data, data ∈ yielded records ->
         exists c, OxfordIITPet._decode_classification_data categories data = Ok c) ->
      decoder = None ->
      raised dp = None)
  /\ (forall s, s ∈ yielded dp ->
      exists data seg img,
        data ∈ yielded records
        /\ seg ∈ anns /\ OxfordIITPet._classify_anns seg = Some 1
        /\ OxfordIITPet._filter_segmentations seg = true
        /\ img ∈ images /\ OxfordIITPet._filter_images img = true
        /\ data !! "image_id" = Some (pathlib.stem (pathlib.parse seg.1))
        /\ data !! "image_id" = Some (pathlib.stem (pathlib.parse img.1))
        /\ OxfordIITPet.segmentation_path s = seg.1
        /\ OxfordIITPet.image_path s = img.1).
Proof.
  intros Habsent resource_dps records dp.
  split; [|split; [|split]].
  - intros s Hs.
    apply sample_is_complete in Hs
      as (data & seg & img & _ & _ & _ & _ & Himg & Hfimg & Hkseg & Hkimg & -> & ->).
    assert (pathlib.stem (pathlib.parse img.1) <> id) as Hne by by apply Habsent.
    split; [done|]. congruence.
  - apply joined_stage_raised.
  - intros Hrecords Hdecode ->. unfold dp, resource_dps.
    rewrite make_datapipe_stages. unfold datapipes.Mapper.
    rewrite map_items_all_ok.
    + by rewrite joined_stage_raised.
    + intros [[data seg] img] Hin.
      unfold OxfordIITPet.joined_stage, datapipes.IterKeyZipper in Hin.
      apply zip_items_yielded in Hin as (Hin & _ & _).
      apply zip_items_yielded in Hin as (Hdata & _ & _).
      destruct (Hdecode data Hdata) as [c Hc].
      destruct seg as [sp sb], img as [ip ib].
      unfold OxfordIITPet._collate_and_decode_sample. rewrite Hc. simpl.
      by eexists.
  - intros s Hs. by apply sample_is_complete in Hs.
Qed.

(** Two records and two masks, but only the image of the second. *)
Lemma unmatched_ids_are_dropped_witness :
  let images := [("images/dogB.jpg", "JPG")] in
  let anns :=
    [("annotations/trainval.txt", "catA 1 1 1" ++ String LF "dogB 2 2 1");
     ("annotations/trimaps/catA.png", "PNG");
     ("annotations/trimaps/dogB.png", "PNG")] in
  let dp :=
    OxfordIITPet._make_datapipe (Tensor := unit) ["Abyssinian"; "Beagle"]
      (of_list images, of_list anns) (OxfordIITPet.mkConfig "trainval") None in
  Forall (fun s => pathlib.stem (pathlib.parse (OxfordIITPet.image_path s)) <> "catA"
                   /\ pathlib.stem (pathlib.parse (OxfordIITPet.segmentation_path s))
                      <> "catA")
    (yielded dp)
  /\ length (yielded dp) = 1%nat
  /\ raised dp = None.
Proof.
  intros images anns dp.
  destruct (unmatched_ids_are_dropped unit ["Abyssinian"; "Beagle"] images anns
              (OxfordIITPet.mkConfig "trainval") None "catA")
    as (Hdrop & _ & Hraised & _).
  - intros img ->%list_elem_of_singleton _. vm_compute. discriminate.
  - split; [|split].
    + apply Forall_forall. intros s Hs. by apply Hdrop.
    + reflexivity.
    + apply Hraised; [reflexivity | | reflexivity].
      intros data Hdata. vm_compute in Hdata.
      apply elem_of_cons in Hdata as [->|Hdata];
        [|apply list_elem_of_singleton in Hdata as ->];
        eexists; vm_compute; reflexivity.
Defined.

(** C3. Each line of the classification list of the split is cut at
    white space into fields; a line with the four fields gives a record
    with the fields image_id, label and species, and any other line is a
    hard error.  A list of well-formed lines gives one record per line
    and no exception.  At the first line with the wrong field count the
    records of the lines before it have been yielded, the line gives no
    record, and MalformedLine ends the parser and the joined stream; the
    pipeline then ends with MalformedLine, unless the assembly of an
    earlier sample has raised first, and every sample it yields comes
    from a line before the malformed one. *)
Theorem malformed_line_is_hard_error (Tensor : Type) (categories : list string)
    (images anns : list entry) (config : OxfordIITPet.DatasetConfig)
    (decoder : option (buffer -> result Tensor)) :
  let lines := classification_lines (of_list anns) config in
  let records := OxfordIITPet.classification_stage (of_list anns) config in
  let joined := OxfordIITPet.joined_stage (of_list images, of_list anns) config in
  let dp := OxfordIITPet._make_datapipe categories
              (of_list images, of_list anns) config decoder in
  (forall line,
     (well_formed_line line ->
      datapipes.parse_row fieldnames " " line = Ok (record_of_line line)
      /\ exists f0 f1 f2 f3,
           datapipes.split_fields " " line = [f0; f1; f2; f3]
           /\ record_of_line line !! "image_id" = Some f0
           /\ record_of_line line !! "label" = Some f1
           /\ record_of_line line !! "species" = Some f2)
     /\ (~ well_formed_line line ->
         datapipes.parse_row fieldnames " " line = Raise MalformedLine))
  /\ (Forall well_formed_line lines ->
      records = mkDataPipe (record_of_line <$> lines) None)
  /\ (forall before line after,
        lines = (before ++ line :: after)%list ->
        Forall well_formed_line before -> ~ well_formed_line line ->
        records = mkDataPipe (record_of_line <$> before) (Some MalformedLine)
        /\ raised joined = Some MalformedLine
        /\ (raised dp = Some MalformedLine
            \/ exists data seg img e,
                 ((data, seg), img) ∈ yielded joined
                 /\ OxfordIITPet._collate_and_decode_sample categories decoder
                      ((data, seg), img) = Raise e
                 /\ raised dp = Some e)
        /\ (forall s, s ∈ yielded dp ->
              exists l, l ∈ before
                /\ record_of_line l !! "image_id"
                   = Some (pathlib.stem
                             (pathlib.parse (OxfordIITPet.segmentation_path s))))).
Proof.
  intros lines records joined dp.
  assert (forall ls, Forall well_formed_line ls ->
            Forall (fun l => datapipes.parse_row fieldnames " " l
                             = Ok (record_of_line l)) ls) as Hrows.
  { intros ls Hls. eapply Forall_impl; [exact Hls|].
    intros l Hl. by apply parse_row_well_formed. }
  split; [|split].
  - intros line. split; [apply parse_row_well_formed | apply parse_row_malformed].
  - intros Hall. unfold records. rewrite classification_stage_lines.
    by apply map_items_all, Hrows.
  - intros before line after Hlines Hbefore Hline.
    assert (records = mkDataPipe (record_of_line <$> before) (Some MalformedLine))
      as Hrecords.
    { unfold records. rewrite classification_stage_lines. fold lines.
      rewrite Hlines. apply map_items_stops; [by apply Hrows|].
      by apply parse_row_malformed. }
    assert (raised joined = Some MalformedLine) as Hjoined.
    { unfold joined. rewrite joined_stage_raised. fold records. by rewrite Hrecords. }
    split; [done|]. split; [done|]. split.
    + unfold dp. rewrite make_datapipe_stages. fold joined. unfold datapipes.Mapper.
      destruct (map_items_raised_cases
                  (OxfordIITPet._collate_and_decode_sample categories decoder)
                  (yielded joined) (raised joined))
        as [Htail|([[data seg] img] & e & Hin & He & Hraised)].
      * left. by rewrite Htail.
      * right. by exists data, seg, img, e.
    + intros s Hs. unfold dp in Hs.
      apply sample_is_complete in Hs
        as (data & seg & img & Hdata & _ & _ & _ & _ & _ & Hkey & _ & -> & _).
      fold records in Hdata. rewrite Hrecords in Hdata. simpl in Hdata.
      apply list_elem_of_fmap in Hdata as (l & -> & Hl).
      by exists l.
Qed.

(** A list whose second line has a fifth field. *)
Lemma malformed_line_is_hard_error_witness :
  let images := [("images/catA.jpg", "JPG")] in
  let anns :=
    [("annotations/trainval.txt", "catA 1 1 1" ++ String LF "catB 2 1 1 9");
     ("annotations/trimaps/catA.png", "PNG")] in
  OxfordIITPet.classification_stage (of_list anns) (OxfordIITPet.mkConfig "trainval")
  = mkDataPipe [record_of_line "catA 1 1 1"] (Some MalformedLine)
  /\ raised (OxfordIITPet.joined_stage (of_list images, of_list anns)
               (OxfordIITPet.mkConfig "trainval"))
     = Some MalformedLine
  /\ raised (OxfordIITPet._make_datapipe (Tensor := unit) ["Abyssinian"]
               (of_list images, of_list anns) (OxfordIITPet.mkConfig "trainval") None)
     = Some MalformedLine
  /\ length (yielded (OxfordIITPet._make_datapipe (Tensor := unit) ["Abyssinian"]
               (of_list images, of_list anns) (OxfordIITPet.mkConfig "trainval") None))
     = 1%nat.
Proof.
  intros images anns.
  destruct (malformed_line_is_hard_error unit ["Abyssinian"] images anns
              (OxfordIITPet.mkConfig "trainval") None) as (_ & _ & Hbad).
  destruct (Hbad ["catA 1 1 1"] "catB 2 1 1 9" []) as (Hrecords & Hjoined & _ & _).
  - reflexivity.
  - repeat constructor.
  - unfold well_formed_line. vm_compute. discriminate.
  - split; [exact Hrecords|]. split; [exact Hjoined|]. split; reflexivity.
Defined.

(** ** Paths built from a directory and a file name *)

Section PathJoin.
Import pathlib.
Local Arguments String.append !_ _ / : simpl nomatch.

Lemma split_nonempty (s : string) (sep : ascii) : Py.split s sep <> [].
Proof.
  destruct s as [|a s]; simpl; [done|].
  destruct (Ascii.eqb a sep); [done|]. by destruct (Py.split s sep).
Qed.

Lemma split_app (d n : string) (sep : ascii) :
  Py.split (d ++ String sep n) sep = (Py.split d sep ++ Py.split n sep)%list.
Proof.
  induction d as [|a d IH]; simpl.
  - by rewrite Ascii.eqb_refl.
  - destruct (Ascii.eqb a sep); [by rewrite IH|].
    rewrite IH. pose proof (split_nonempty d sep) as Hne.
    by destruct (Py.split d sep).
Qed.

(** The components of [d/n], for a file name [n] without a slash. *)
Lemma names_join (d n : string) :
  Py.split n "/" = [n] -> keep_component n = true ->
  names (parse (d ++ String "/" n)) = (names (parse d) ++ [n])%list.
Proof.
  intros Hn Hkeep. unfold parse. simpl.
  rewrite split_app, Hn, List.filter_app. simpl. by rewrite Hkeep.
Qed.

Lemma name_join (d n : string) :
  Py.split n "/" = [n] -> keep_component n = true ->
  name (parse (d ++ String "/" n)) = n
  /\ name (parent (parse (d ++ String "/" n))) = name (parse d).
Proof.
  intros Hn Hkeep. unfold name, parent. cbn [names].
  rewrite names_join by done. split.
  - apply List.last_last.
  - by rewrite List.removelast_last.
Qed.

End PathJoin.
(** ** One record, one mask, one image *)

Section EndToEnd.
Import pathlib datapipes internal OxfordIITPet.
Context {Tensor : Type}.

Lemma filter_head {A : Type} (f : A -> bool) (a : A) (l : list A) (b : bool) :
  f a = b -> List.filter f (a :: l) = if b then a :: List.filter f l else List.filter f l.
Proof. intros <-. reflexivity. Qed.

Lemma single_sample (category : string) (others : list string)
    (ann_path seg_path img_path : string) (seg_buffer img_buffer : buffer)
    (anns : list entry) :
  name (parent (parse ann_path)) = "annotations" ->
  name (parse ann_path) = "trainval.txt" ->
  name (parent (parse seg_path)) = "trimaps" ->
  name (parse seg_path) = "catA.png" ->
  name (parse img_path) = "catA.jpg" ->
  anns = [(ann_path, "catA 1 1 1"); (seg_path, seg_buffer)]
  \/ anns = [(seg_path, seg_buffer); (ann_path, "catA 1 1 1")] ->
  _make_datapipe (Tensor := Tensor) (category :: others)
    (of_list [(img_path, img_buffer)], of_list anns) (mkConfig "trainval") None
  = mkDataPipe
      [mkSample (mkLabel 0 category) "cat" seg_path (Undecoded seg_buffer)
         img_path (Undecoded img_buffer)]
      None.
Proof.
  intros Hadir Haname Hsdir Hsname Hiname Hanns.
  set (ann := (ann_path, "catA 1 1 1") : entry) in *.
  set (seg := (seg_path, seg_buffer) : entry) in *.
  set (img := (img_path, img_buffer) : entry).
  assert (_classify_anns ann = Some 0) as Hca.
  { rewrite classify_anns_eq. simpl. by rewrite Hadir. }
  assert (_classify_anns seg = Some 1) as Hcs.
  { rewrite classify_anns_eq. simpl. by rewrite Hsdir. }
  assert (path_comparator name "trainval.txt" ann = true) as Hsplit.
  { unfold path_comparator. simpl. by rewrite Haname. }
  assert (_filter_segmentations seg = true) as Hfs.
  { unfold _filter_segmentations. simpl. by rewrite Hsname. }
  assert (stem (parse seg_path) = "catA") as Hsstem.
  { unfold stem. by rewrite Hsname. }
  assert (stem (parse img_path) = "catA") as Histem.
  { unfold stem. by rewrite Hiname. }
  assert (_filter_images img = true) as Hfi.
  { unfold _filter_images, suffix. simpl. by rewrite Hiname. }
  assert (classification_stage (of_list anns) (mkConfig "trainval")
          = mkDataPipe [dict_zip fieldnames ["catA"; "1"; "1"; "1"]] None) as Hcls.
  { rewrite classification_stage_lines. unfold classification_lines, of_list.
    cbn [yielded raised split].
    change ("trainval" ++ ".txt") with "trainval.txt".
    destruct Hanns as [-> | ->].
    - rewrite (filter_head _ ann _ true) by (by rewrite Hca).
      rewrite (filter_head _ seg _ false) by (by rewrite Hcs).
      cbn [List.filter]. rewrite Hsplit.
      reflexivity.
    - rewrite (filter_head _ seg _ false) by (by rewrite Hcs).
      rewrite (filter_head _ ann _ true) by (by rewrite Hca).
      cbn [List.filter]. rewrite Hsplit.
      reflexivity. }
  assert (segmentation_stage (of_list anns) = mkDataPipe [seg] None) as Hsegs.
  { unfold segmentation_stage, Demultiplexer, Filter, of_list.
    cbn [yielded raised Z.leb Z.ltb Z.compare Pos.compare Pos.compare_cont andb].
    destruct Hanns as [-> | ->].
    - rewrite (filter_head _ ann _ false) by (by rewrite Hca).
      rewrite (filter_head _ seg _ true) by (by rewrite Hcs).
      cbn [List.filter]. by rewrite Hfs.
    - rewrite (filter_head _ seg _ true) by (by rewrite Hcs).
      rewrite (filter_head _ ann _ false) by (by rewrite Hca).
      cbn [List.filter]. by rewrite Hfs. }
  rewrite make_datapipe_stages. unfold joined_stage.
  cbn [fst snd]. rewrite Hcls, Hsegs.
  unfold Filter, of_list. cbn [yielded raised List.filter]. rewrite Hfi.
  unfold IterKeyZipper, path_accessor.
  set (data := dict_zip fieldnames ["catA"; "1"; "1"; "1"]).
  assert (getitem "image_id" data = Ok "catA") as Hkey by reflexivity.
  assert (_decode_classification_data (category :: others) data
          = Ok (Classification.mk (mkLabel 0 category) "cat")) as Hdec by reflexivity.
  assert (pop_key (fun d : entry => stem (parse d.1)) "catA" [seg] = Some (seg, []))
    as Hpseg.
  { cbn [pop_key fst seg]. by rewrite Hsstem. }
  assert (pop_key (fun d : entry => stem (parse d.1)) "catA" [img] = Some (img, []))
    as Hpimg.
  { cbn [pop_key fst img]. by rewrite Histem. }
  cbn [yielded raised zip_items]. rewrite Hkey, Hpseg.
  cbn [yielded raised zip_items yield finish fst]. rewrite Hkey, Hpimg.
  unfold Mapper. cbn [yielded raised yield finish map_items].
  unfold _collate_and_decode_sample, seg, img. rewrite Hdec. reflexivity.
Qed.

End EndToEnd.

(** C1. With the split "trainval", no decoder and a non-empty category
    table, the three entries <ann_dir>/trainval.txt (under a directory
    named annotations, holding the single line "catA 1 1 1"),
    <seg_dir>/catA.png (under a directory named trimaps) and
    <img_dir>/catA.jpg, the two annotation entries in either order, give
    exactly one sample and no exception; its image_path ends with
    "catA.jpg", its segmentation_path ends with "catA.png" and its
    species is "cat". *)
Theorem end_to_end_single_sample (Tensor : Type)
    (category : string) (others : list string)
    (ann_dir seg_dir img_dir : string) (seg_buffer img_buffer : buffer)
    (anns : list entry) :
  let ann : entry := (ann_dir ++ "/trainval.txt", "catA 1 1 1") in
  let seg : entry := (seg_dir ++ "/catA.png", seg_buffer) in
  let img : entry := (img_dir ++ "/catA.jpg", img_buffer) in
  pathlib.name (pathlib.parse ann_dir) = "annotations" ->
  pathlib.name (pathlib.parse seg_dir) = "trimaps" ->
  anns = [ann; seg] \/ anns = [seg; ann] ->
  exists s : OxfordIITPet.Sample (Tensor := Tensor),
    OxfordIITPet._make_datapipe (category :: others)
      (of_list [img], of_list anns) (OxfordIITPet.mkConfig "trainval") None
    = mkDataPipe [s] None
    /\ Py.endswith (OxfordIITPet.image_path s) "catA.jpg" = true
    /\ Py.endswith (OxfordIITPet.segmentation_path s) "catA.png" = true
    /\ OxfordIITPet.species s = "cat"
    /\ s = OxfordIITPet.mkSample (OxfordIITPet.mkLabel 0 category) "cat"
             seg.1 (OxfordIITPet.Undecoded seg_buffer)
             img.1 (OxfordIITPet.Undecoded img_buffer).
Proof.
  intros ann seg img Hann Hseg Hanns.
  destruct (name_join ann_dir "trainval.txt") as [Haname Hadir]; [done..|].
  destruct (name_join seg_dir "catA.png") as [Hsname Hsdir]; [done..|].
  destruct (name_join img_dir "catA.jpg") as [Hiname _]; [done..|].
  rewrite Hann in Hadir. rewrite Hseg in Hsdir.
  eexists. split; [|split; [|split; [|split]]]; [| | | |reflexivity].
  - by apply (single_sample category others (ann_dir ++ "/trainval.txt")
                (seg_dir ++ "/catA.png") (img_dir ++ "/catA.jpg")
                seg_buffer img_buffer anns).
  - by apply endswith_app_l.
  - by apply endswith_app_l.
  - reflexivity.
Qed.

(** The three entries as the archives lay them out. *)
Lemma end_to_end_single_sample_witness :
  exists s : OxfordIITPet.Sample (Tensor := unit),
    OxfordIITPet._make_datapipe ["Abyssinian"; "Beagle"]
      (of_list [("images/catA.jpg", "JPG")],
       of_list [("annotations/trainval.txt", "catA 1 1 1");
                ("annotations/trimaps/catA.png", "PNG")])
      (OxfordIITPet.mkConfig "trainval") None
    = mkDataPipe [s] None
    /\ Py.endswith (OxfordIITPet.image_path s) "catA.jpg" = true
    /\ Py.endswith (OxfordIITPet.segmentation_path s) "catA.png" = true
    /\ OxfordIITPet.species s = "cat".
Proof.
  destruct (end_to_end_single_sample unit "Abyssinian" ["Beagle"]
              "annotations" "annotations/trimaps" "images" "PNG" "JPG"
              [("annotations/trainval.txt", "catA 1 1 1");
               ("annotations/trimaps/catA.png", "PNG")])
    as (s & Hdp & Himg & Hseg & Hsp & _).
  - reflexivity.
  - reflexivity.
  - by left.
  - exists s. split; [exact Hdp|]. split; [exact Himg|]. split; [exact Hseg | exact Hsp].
Defined.

(** * Further properties of the code *)

(** ** The label decoder, case by case *)

Section DecoderCases.
Import OxfordIITPet.

Lemma int_raises_ValueError (s : string) (e : exn) :
  Py.int s = Raise e -> e = ValueError.
Proof.
  unfold Py.int.
  match goal with |- match ?r with _ => _ end = _ -> _ => destruct r end;
    [done | by intros [= <-]].
Qed.

(** Indexing returns exactly in [-len, len), and then the entry at the
    index taken modulo the length. *)
Lemma getitem_Ok_iff {A : Type} (seq : list A) (i : Z) (x : A) :
  Py.getitem seq i = Ok x <->
  - Z.of_nat (length seq) <= i < Z.of_nat (length seq)
  /\ seq !! Z.to_nat (i mod Z.of_nat (length seq)) = Some x.
Proof.
  set (n := Z.of_nat (length seq)).
  destruct (Z_lt_dec i (- n)) as [Hlow|Hlow];
    [|destruct (Z_le_dec n i) as [Hhigh|Hhigh]].
  - rewrite getitem_raises by (fold n; lia). split; [done | lia].
  - rewrite getitem_raises by (fold n; lia). split; [done | lia].
  - destruct (Z_lt_dec i 0) as [Hneg|Hpos].
    + destruct (getitem_negative seq i) as (y & Hy & Hget); [fold n; lia|].
      fold n in Hy. rewrite Hget.
      replace (i mod n) with (i + n)
        by (apply Z.mod_unique with (-1); lia).
      rewrite Hy. split; [intros [= ->]; split; [lia | done] | by intros [_ [= ->]]].
    + destruct (getitem_in_range seq i) as (y & Hy & Hget); [fold n; lia|].
      rewrite Hget, Z.mod_small by lia. rewrite Hy.
      split; [intros [= ->]; split; [lia | done] | by intros [_ [= ->]]].
Qed.

Lemma getitem_raises_IndexError {A : Type} (seq : list A) (i : Z) (e : exn) :
  Py.getitem seq i = Raise e -> e = IndexError.
Proof.
  unfold Py.getitem. destruct (_ || _); [by intros [= <-]|].
  destruct (seq !! _); [done | by intros [= <-]].
Qed.

End DecoderCases.

(** X1. The label decoder returns exactly for a record with a label
    field that reads as an integer [n] with [-len <= n - 1 < len] and
    with a species field; the label then has the index [n - 1] and the
    category at [(n - 1) mod len] of the table. *)
Theorem decode_classification_succeeds_iff (categories : list string)
    (data : gmap string string) (c : OxfordIITPet.Classification.t) :
  OxfordIITPet._decode_classification_data categories data = Ok c <->
  exists (l s cat : string) (n : Z),
    data !! "label" = Some l /\ Py.int l = Ok n
    /\ - Z.of_nat (length categories) <= n - 1 < Z.of_nat (length categories)
    /\ categories !! Z.to_nat ((n - 1) mod Z.of_nat (length categories)) = Some cat
    /\ data !! "species" = Some s
    /\ c = OxfordIITPet.Classification.mk (OxfordIITPet.mkLabel (n - 1) cat)
             (if String.eqb s "1" then "cat" else "dog").
Proof.
  split.
  - intros (l & n & s & cat & Hl & Hn & Hcat & Hs & ->)%decode_classification_Ok.
    apply getitem_Ok_iff in Hcat as [Hrange Hcat].
    by exists l, s, cat, n.
  - intros (l & s & cat & n & Hl & Hn & Hrange & Hcat & Hs & ->).
    rewrite (decode_classification_eq _ _ _ _ _ Hl Hn Hs).
    assert (Py.getitem categories (n - 1) = Ok cat) as ->; [|done].
    by apply getitem_Ok_iff.
Qed.

(** X2. What the label decoder raises, and in which order it looks: a
    record without a label field raises KeyError; a label that is no
    integer raises ValueError whatever the table and the species field
    are; a label whose index is outside the table raises IndexError
    whether the species field is there or not; a missing species field
    raises KeyError only once the label has passed; and it raises nothing
    but KeyError, ValueError and IndexError. *)
Theorem decode_classification_raises (categories : list string)
    (data : gmap string string) :
  (data !! "label" = None ->
   OxfordIITPet._decode_classification_data categories data = Raise KeyError)
  /\ (forall l e, data !! "label" = Some l -> Py.int l = Raise e ->
        OxfordIITPet._decode_classification_data categories data = Raise ValueError)
  /\ (forall l n, data !! "label" = Some l -> Py.int l = Ok n ->
        n - 1 < - Z.of_nat (length categories)
        \/ Z.of_nat (length categories) <= n - 1 ->
        OxfordIITPet._decode_classification_data categories data = Raise IndexError)
  /\ (forall l n, data !! "label" = Some l -> Py.int l = Ok n ->
        - Z.of_nat (length categories) <= n - 1 < Z.of_nat (length categories) ->
        data !! "species" = None ->
        OxfordIITPet._decode_classification_data categories data = Raise KeyError)
  /\ (forall e, OxfordIITPet._decode_classification_data categories data = Raise e ->
        e = KeyError \/ e = ValueError \/ e = IndexError).
Proof.
  unfold OxfordIITPet._decode_classification_data, Py.dict_getitem.
  split; [|split; [|split; [|split]]].
  - by intros ->.
  - intros l e -> He. simpl. rewrite He. simpl.
    by rewrite (int_raises_ValueError _ _ He).
  - intros l n -> Hn Hout. simpl. rewrite Hn. simpl.
    by rewrite getitem_raises.
  - intros l n -> Hn Hrange ->. simpl. rewrite Hn. simpl.
    destruct (Z_lt_dec (n - 1) 0).
    + destruct (getitem_negative categories (n - 1)) as (x & _ & ->); [lia | done].
    + destruct (getitem_in_range categories (n - 1)) as (x & _ & ->); [lia | done].
  - intros e. destruct (data !! "label") as [l|]; simpl; [|intros [= <-]; by left].
    destruct (Py.int l) as [n|e'] eqn:Hn; simpl.
    + destruct (Py.getitem categories (n - 1)) as [cat|e'] eqn:Hget; simpl.
      * destruct (data !! "species"); simpl; [done | intros [= <-]; by left].
      * intros [= <-]. right; right. by apply getitem_raises_IndexError in Hget.
    + intros [= <-]. right; left. by apply int_raises_ValueError in Hn.
Qed.

(** ** The image filter and its key *)

(** The image filter, by the shape of the file name. *)
Lemma filter_images_suffix_iff (data : entry) :
  (exists x, x <> "" /\ pathlib.name (pathlib.parse data.1) = x ++ ".jpg") <->
  OxfordIITPet._filter_images data = true.
Proof.
  unfold OxfordIITPet._filter_images. rewrite String.eqb_eq.
  symmetry. by apply (suffix_spec _ "jpg").
Qed.

(** ** The sample assembler *)

(** X3. Without a decoder [_collate_and_decode_sample] fails exactly as
    the label decoder fails and otherwise hands both paths and both byte
    streams through untouched.  With a decoder, an exception of the label
    decoder comes first, then one on the segmentation stream, then one on
    the image stream; when all three pass, the sample holds the decoded
    segmentation of the segmentation entry and the decoded image of the
    image entry. *)
Theorem collate_and_decode_sample_cases (Tensor : Type)
    (categories : list string) (data : gmap string string) (seg img : entry) :
  let collate decoder :=
    OxfordIITPet._collate_and_decode_sample (Tensor := Tensor) categories decoder
      ((data, seg), img) in
  let decoded := OxfordIITPet._decode_classification_data categories data in
  collate None
  = (fun c => OxfordIITPet.mkSample
                (OxfordIITPet.Classification.label c)
                (OxfordIITPet.Classification.species c)
                seg.1 (OxfordIITPet.Undecoded seg.2)
                img.1 (OxfordIITPet.Undecoded img.2)) <$> decoded
  /\ (forall f e, decoded = Raise e -> collate (Some f) = Raise e)
  /\ (forall f c e, decoded = Ok c -> f seg.2 = Raise e -> collate (Some f) = Raise e)
  /\ (forall f c t e, decoded = Ok c -> f seg.2 = Ok t -> f img.2 = Raise e ->
        collate (Some f) = Raise e)
  /\ (forall f c t u, decoded = Ok c -> f seg.2 = Ok t -> f img.2 = Ok u ->
        collate (Some f)
        = Ok (OxfordIITPet.mkSample
                (OxfordIITPet.Classification.label c)
                (OxfordIITPet.Classification.species c)
                seg.1 (OxfordIITPet.Decoded t) img.1 (OxfordIITPet.Decoded u))).
Proof.
  destruct seg as [sp sb], img as [ip ib]. cbv zeta.
  unfold OxfordIITPet._collate_and_decode_sample, OxfordIITPet.decode. simpl.
  split; [|split; [|split; [|split]]].
  - by destruct (OxfordIITPet._decode_classification_data categories data).
  - by intros f e ->.
  - intros f c e -> Hseg. simpl. by rewrite Hseg.
  - intros f c t e -> Hseg Himg. simpl. rewrite Hseg. simpl. by rewrite Himg.
  - intros f c t u -> Hseg Himg. simpl. rewrite Hseg. simpl. by rewrite Himg.
Qed.

(** ** Which entries are read *)

Section EntriesRead.
Import pathlib datapipes internal OxfordIITPet.

Lemma filter_nested_implied {A : Type} (p c rel : A -> bool) (l : list A) :
  (forall a, c a = true -> p a = true -> rel a = true) ->
  List.filter p (List.filter c (List.filter rel l))
  = List.filter p (List.filter c l).
Proof.
  intros Himp. induction l as [|a l IH]; simpl; [done|].
  destruct (rel a) eqn:Hrel; simpl.
  - destruct (c a); simpl; [|done]. by rewrite IH.
  - destruct (c a) eqn:Hc; simpl; [|done].
    destruct (p a) eqn:Hp; [|done].
    rewrite (Himp a Hc Hp) in Hrel. done.
Qed.

Lemma classification_stage_relevant (anns_dp : IterDataPipe entry)
    (config : DatasetConfig) :
  classification_stage (Filter anns_dp (relevant_annotation config)) config
  = classification_stage anns_dp config.
Proof.
  rewrite !classification_stage_lines. unfold classification_lines. simpl.
  rewrite filter_nested_implied; [done|].
  intros a Hc Hp. unfold relevant_annotation. by rewrite Hc, Hp.
Qed.

Lemma segmentation_stage_relevant (anns_dp : IterDataPipe entry)
    (config : DatasetConfig) :
  segmentation_stage (Filter anns_dp (relevant_annotation config))
  = segmentation_stage anns_dp.
Proof.
  unfold segmentation_stage, Demultiplexer, Filter. simpl. f_equal.
  apply filter_nested_implied.
  intros a Hc Hp. unfold relevant_annotation. rewrite Hc, Hp.
  by destruct (_ && _).
Qed.

End EntriesRead.

(** X4. [_filter_split_and_classification_anns] accepts an entry exactly
    when the parent directory name of its path is "annotations"; the
    entries it keeps are the ones the first stream of the demultiplexer
    of [_make_datapipe] sees, so [_generate_categories], for the same
    split, reads the very lines that the pipeline parses. *)
Theorem split_and_classification_filter (data : entry) :
  (OxfordIITPet._filter_split_and_classification_anns data = true <->
   pathlib.name (pathlib.parent (pathlib.parse data.1)) = "annotations")
  /\ (forall dp : IterDataPipe entry,
        datapipes.Filter dp OxfordIITPet._filter_split_and_classification_anns
        = datapipes.Demultiplexer dp 2 OxfordIITPet._classify_anns 0)
  /\ (forall (anns_dp : IterDataPipe entry) (config : OxfordIITPet.DatasetConfig),
        OxfordIITPet.category_rows anns_dp config
        = datapipes.map_items (datapipes.parse_row ["image_id"; "label"] " ")
            (classification_lines anns_dp config) (raised anns_dp)
        /\ OxfordIITPet.classification_stage anns_dp config
           = datapipes.map_items (datapipes.parse_row fieldnames " ")
               (classification_lines anns_dp config) (raised anns_dp)).
Proof.
  split; [|split].
  - unfold OxfordIITPet._filter_split_and_classification_anns.
    rewrite bool_decide_eq_true, classify_anns_eq. cbv zeta.
    repeat case_decide; split; congruence.
  - done.
  - done.
Qed.

(** X5. Only three kinds of entries matter to [_make_datapipe]: images
    that the image filter accepts, the classification list of the split,
    and masks that the segmentation filter accepts.  Taking every other
    entry out of the two archives changes neither the samples nor the end
    of the pipeline. *)
Theorem make_datapipe_ignores_other_entries (Tensor : Type)
    (categories : list string) (images_dp anns_dp : IterDataPipe entry)
    (config : OxfordIITPet.DatasetConfig)
    (decoder : option (buffer -> result Tensor)) :
  OxfordIITPet._make_datapipe categories
    (datapipes.Filter images_dp OxfordIITPet._filter_images,
     datapipes.Filter anns_dp (relevant_annotation config))
    config decoder
  = OxfordIITPet._make_datapipe categories (images_dp, anns_dp) config decoder.
Proof.
  rewrite !make_datapipe_stages. unfold OxfordIITPet.joined_stage. simpl.
  rewrite classification_stage_relevant, segmentation_stage_relevant.
  do 2 f_equal. unfold datapipes.Filter. simpl. f_equal.
  by apply filter_filter_implied.
Qed.

(** X6. When the annotation archive holds no file <split>.txt in a
    directory named annotations, the pipeline yields no sample, whatever
    the images and masks are, and ends as the annotation archive ends. *)
Theorem make_datapipe_without_split_file (Tensor : Type)
    (categories : list string) (images_dp anns_dp : IterDataPipe entry)
    (config : OxfordIITPet.DatasetConfig)
    (decoder : option (buffer -> result Tensor)) :
  (forall data : entry, data ∈ yielded anns_dp ->
     pathlib.name (pathlib.parent (pathlib.parse data.1)) = "annotations" ->
     pathlib.name (pathlib.parse data.1) <> OxfordIITPet.split config ++ ".txt") ->
  OxfordIITPet._make_datapipe categories (images_dp, anns_dp) config decoder
  = finish (raised anns_dp).
Proof.
  intros Hnone.
  assert (classification_lines anns_dp config = []) as Hlines.
  { unfold classification_lines.
    assert (List.filter
              (internal.path_comparator pathlib.name
                 (OxfordIITPet.split config ++ ".txt"))
              (List.filter
                 (fun a => bool_decide (OxfordIITPet._classify_anns a = Some 0))
                 (yielded anns_dp)) = []) as ->; [|done].
    induction (yielded anns_dp) as [|a l IH]; simpl; [done|].
    assert (forall data, data ∈ l ->
              pathlib.name (pathlib.parent (pathlib.parse data.1)) = "annotations" ->
              pathlib.name (pathlib.parse data.1) <> OxfordIITPet.split config ++ ".txt")
      as Hl by (intros data Hdata; apply Hnone; by right).
    destruct (bool_decide _) eqn:Hc; simpl; [|by apply IH].
    apply bool_decide_eq_true in Hc.
    destruct (internal.path_comparator _ _ a) eqn:Hp; [|by apply IH].
    exfalso. unfold internal.path_comparator in Hp. apply String.eqb_eq in Hp.
    apply (Hnone a); [left | | done].
    rewrite classify_anns_eq in Hc. cbv zeta in Hc.
    by repeat case_decide. }
  rewrite make_datapipe_stages. unfold OxfordIITPet.joined_stage. simpl.
  rewrite classification_stage_lines, Hlines. reflexivity.
Qed.

(** The archives as they are laid out, read with the split "train". *)
Lemma make_datapipe_without_split_file_witness :
  OxfordIITPet._make_datapipe (Tensor := unit) ["Abyssinian"]
    (of_list [("images/catA.jpg", "JPG")],
     of_list [("annotations/trainval.txt", "catA 1 1 1");
              ("annotations/test.txt", "catB 1 1 1");
              ("annotations/trimaps/catA.png", "PNG")])
    (OxfordIITPet.mkConfig "train") None
  = finish None.
Proof.
  apply (make_datapipe_without_split_file unit ["Abyssinian"]
           (of_list [("images/catA.jpg", "JPG")])
           (of_list [("annotations/trainval.txt", "catA 1 1 1");
                     ("annotations/test.txt", "catB 1 1 1");
                     ("annotations/trimaps/catA.png", "PNG")])
           (OxfordIITPet.mkConfig "train") None).
  intros data Hdata _. simpl in Hdata.
  repeat (apply elem_of_cons in Hdata as [->|Hdata]; [vm_compute; discriminate|]).
  by apply elem_of_nil in Hdata.
Defined.

(** X7. The image filter accepts an entry exactly when its file name is
    its join key, which is then not empty, followed by ".jpg". *)
Theorem filter_images_join_key (data : entry) :
  OxfordIITPet._filter_images data = true <->
  internal.path_accessor pathlib.stem data <> ""
  /\ pathlib.name (pathlib.parse data.1)
     = internal.path_accessor pathlib.stem data ++ ".jpg".
Proof.
  unfold internal.path_accessor. split.
  - intros Hf. pose proof (stem_suffix (pathlib.parse data.1)) as Hname.
    unfold OxfordIITPet._filter_images in Hf. apply String.eqb_eq in Hf.
    rewrite Hf in Hname. split; [|done].
    intros Hstem. rewrite Hstem in Hname.
    unfold pathlib.suffix in Hf. rewrite Hname in Hf. discriminate Hf.
  - intros [Hstem Hname].
    apply (proj1 (filter_images_suffix_iff data)).
    by exists (pathlib.stem (pathlib.parse data.1)).
Qed.

(** ** Category names *)

Section CategoryNames.
Import OxfordIITPet.
Local Arguments String.append !_ _ / : simpl nomatch.

Lemma title_from_cons (c : ascii) (s : string) (b : bool) :
  Py.title_from (String c s) b
  = String (title_char c b) (Py.title_from s (is_cased c)).
Proof.
  simpl. unfold title_char, is_cased.
  destruct (Py.islower c); [done|]. by destruct (Py.isupper c).
Qed.

(** Character facts, checked on each of the 256 characters. *)
Lemma title_char_facts (c : ascii) (b : bool) :
  is_cased (title_char c b) = is_cased c
  /\ title_char (title_char c b) b = title_char c b
  /\ (title_char c b = "_"%char <-> c = "_"%char)
  /\ (c = "_"%char -> is_cased c = false)
  /\ is_cased " " = false.
Proof.
  destruct c as [[] [] [] [] [] [] [] []], b; vm_compute;
    (repeat split; intros; try done).
Qed.

Lemma title_from_length (s : string) (b : bool) :
  String.length (Py.title_from s b) = String.length s.
Proof.
  revert b. induction s as [|c s IH]; intros b; [done|].
  rewrite title_from_cons. simpl. by rewrite IH.
Qed.

Lemma title_from_idempotent (s : string) (b : bool) :
  Py.title_from (Py.title_from s b) b = Py.title_from s b.
Proof.
  revert b. induction s as [|c s IH]; intros b; [done|].
  rewrite !title_from_cons.
  destruct (title_char_facts c b) as (Hcased & Hidem & _).
  by rewrite Hcased, Hidem, IH.
Qed.

Lemma underscores_to_spaces_length (s : string) :
  String.length (underscores_to_spaces s) = String.length s.
Proof. induction s as [|c s IH]; simpl; [done | by rewrite IH]. Qed.

Lemma join_cons (sep : string) (c : ascii) (w : string) (ws : list string) :
  Py.join sep (String c w :: ws) = String c (Py.join sep (w :: ws)).
Proof. by destruct ws. Qed.

(** Titling the parts between underscores and joining them with spaces
    is titling the whole with spaces for underscores: a space starts a
    new word as an underscore does. *)
Lemma title_join_split (s : string) (b : bool) :
  Py.join " "
    (match Py.split s "_" with
     | w :: ws => Py.title_from w b :: map Py.title ws
     | [] => []
     end)
  = Py.title_from (underscores_to_spaces s) b.
Proof.
  revert b. induction s as [|c s IH]; intros b; [done|].
  simpl Py.split. simpl underscores_to_spaces.
  destruct (Ascii.eqb_spec c "_") as [->|Hc].
  - rewrite title_from_cons.
    replace (title_char " " b) with " "%char by by destruct b.
    replace (is_cased " ") with false by done.
    rewrite <- (IH false).
    pose proof (split_nonempty s "_") as Hne.
    destruct (Py.split s "_") as [|w ws]; [done|]. reflexivity.
  - rewrite title_from_cons. rewrite <- (IH (is_cased c)).
    pose proof (split_nonempty s "_") as Hne.
    destruct (Py.split s "_") as [|w ws]; [done|].
    rewrite title_from_cons. by rewrite join_cons.
Qed.

Lemma category_name_title (raw : string) :
  category_name raw = Py.title (underscores_to_spaces raw).
Proof.
  unfold category_name, Py.title. rewrite <- title_join_split.
  pose proof (split_nonempty raw "_") as Hne.
  by destruct (Py.split raw "_").
Qed.

Lemma title_without_underscore (s : string) (b : bool) :
  Py.rfind (Py.title_from (underscores_to_spaces s) b) "_" = -1
  /\ underscores_to_spaces (Py.title_from (underscores_to_spaces s) b)
     = Py.title_from (underscores_to_spaces s) b.
Proof.
  revert b. induction s as [|c s IH]; intros b; [done|].
  set (c' := if Ascii.eqb c "_" then " "%char else c).
  change (underscores_to_spaces (String c s))
    with (String c' (underscores_to_spaces s)).
  rewrite title_from_cons.
  destruct (IH (is_cased c')) as [Hfind Hsame].
  assert (title_char c' b <> "_"%char) as Hne.
  { intros Heq. destruct (title_char_facts c' b) as (_ & _ & Hiff & _).
    apply Hiff in Heq. revert Heq. unfold c'.
    by destruct (Ascii.eqb_spec c "_"). }
  apply Ascii.eqb_neq in Hne. split.
  - cbn [Py.rfind]. rewrite Hfind. cbn. by rewrite Hne.
  - cbn [underscores_to_spaces]. by rewrite Hsame, Hne.
Qed.

End CategoryNames.

(** X8. The name [_generate_categories] gives a raw category is the raw
    category with a space for every underscore and with every word in
    title case; it is as long as the raw category, holds no underscore,
    and naming a name again changes nothing. *)
Theorem category_name_is_title_with_spaces (raw : string) :
  OxfordIITPet.category_name raw = Py.title (underscores_to_spaces raw)
  /\ String.length (OxfordIITPet.category_name raw) = String.length raw
  /\ Py.rfind (OxfordIITPet.category_name raw) "_" = -1
  /\ OxfordIITPet.category_name (OxfordIITPet.category_name raw)
     = OxfordIITPet.category_name raw.
Proof.
  rewrite !category_name_title. unfold Py.title.
  destruct (title_without_underscore raw false) as [Hfind Hsame].
  split; [done|]. split; [|split; [done|]].
  - by rewrite title_from_length, underscores_to_spaces_length.
  - rewrite Hsame. apply title_from_idempotent.
Qed.

(** ** Sorting by key *)

Section SortedByKey.
Context {A : Type}.
Implicit Types (x y : Z * A) (l : list (Z * A)) (key : A -> result Z).

Lemma insert_by_key_perm x l : Py.insert_by_key x l ≡ₚ x :: l.
Proof.
  induction l as [|y l IH]; simpl; [done|].
  destruct (x.1 <=? y.1); [done|]. rewrite IH. apply Permutation_swap.
Qed.

Lemma sort_by_key_perm l : Py.sort_by_key l ≡ₚ l.
Proof.
  induction l as [|x l IH]; simpl; [done|].
  by rewrite insert_by_key_perm, IH.
Qed.

Lemma insert_by_key_sorted x l :
  StronglySorted key_le l -> StronglySorted key_le (Py.insert_by_key x l).
Proof.
  induction 1 as [|y l Hl IH Hy]; simpl; [by repeat constructor|].
  destruct (Z.leb_spec x.1 y.1) as [Hxy|Hxy].
  - constructor; [by constructor|]. constructor; [done|].
    eapply Forall_impl; [exact Hy|]. unfold key_le. intros z Hz. simpl in *. lia.
  - constructor; [done|]. rewrite insert_by_key_perm.
    constructor; [unfold key_le; lia | done].
Qed.

Lemma sort_by_key_sorted l : StronglySorted key_le (Py.sort_by_key l).
Proof.
  induction l as [|x l IH]; simpl; [constructor|].
  by apply insert_by_key_sorted.
Qed.

(** Sorted entries with pairwise different keys rise strictly. *)
Lemma sorted_strict l :
  StronglySorted key_le l -> NoDup l.*1 -> StronglySorted key_lt l.
Proof.
  induction 1 as [|y l Hl IH Hy]; simpl; [constructor|].
  intros [Hnotin Hnodup]%NoDup_cons. constructor; [by apply IH|].
  apply Forall_forall. intros z Hz.
  rewrite Forall_forall in Hy. specialize (Hy z Hz).
  unfold key_le, key_lt in *.
  destruct (decide (y.1 = z.1)) as [Heq|Hne]; [|lia].
  destruct Hnotin. rewrite Heq. apply list_elem_of_fmap. by exists z.
Qed.

Lemma decorate_Ok key (items : list A) (decorated : list (Z * A)) :
  Py.decorate key items = Ok decorated ->
  decorated = (fun a => (key_or_zero key a, a)) <$> items
  /\ forall a, a ∈ items -> key a = Ok (key_or_zero key a).
Proof.
  revert decorated. induction items as [|a items IH]; intros decorated; simpl.
  - intros [= <-]. split; [done | by intros a ?%elem_of_nil].
  - destruct (key a) as [k|] eqn:Hk; simpl; [|done].
    destruct (Py.decorate key items) as [rest|]; simpl; [|done].
    intros [= <-]. destruct (IH rest eq_refl) as [-> Hall].
    assert (key_or_zero key a = k) as Hkz by (unfold key_or_zero; by rewrite Hk).
    rewrite Hkz. split; [done|].
    intros a' [->|Ha']%elem_of_cons; [by rewrite Hkz | by apply Hall].
Qed.

Lemma decorate_all_Ok key (items : list A) :
  (forall a, a ∈ items -> exists k, key a = Ok k) ->
  Py.decorate key items = Ok ((fun a => (key_or_zero key a, a)) <$> items).
Proof.
  induction items as [|a items IH]; intros Hall; simpl; [done|].
  destruct (Hall a) as [k Hk]; [left|]. rewrite Hk. simpl.
  rewrite IH by (intros a' Ha'; apply Hall; by right). simpl.
  assert (key_or_zero key a = k) as Hkz by (unfold key_or_zero; by rewrite Hk).
  by rewrite Hkz.
Qed.

Lemma decorate_Raise key (items : list A) (e : exn) :
  Py.decorate key items = Raise e -> exists a, a ∈ items /\ key a = Raise e.
Proof.
  induction items as [|a items IH]; simpl; [done|].
  destruct (key a) as [k|e'] eqn:Hk; simpl.
  - destruct (Py.decorate key items) as [rest|e']; simpl; [done|].
    intros [= <-]. destruct (IH eq_refl) as (a' & Ha' & Hka').
    exists a'. split; [by right | done].
  - intros [= <-]. exists a. split; [left | done].
Qed.


End SortedByKey.

(** A strictly rising list of [n] integers from [lo] up to [lo + n - 1]
    counts from [lo]. *)
Lemma rising_length (l : list Z) (lo hi : Z) :
  StronglySorted Z.lt l -> Forall (fun x => lo <= x < hi) l ->
  Z.of_nat (length l) <= Z.max 0 (hi - lo).
Proof.
  intros Hsorted. revert lo.
  induction Hsorted as [|x l Hl IH Hx]; intros lo Hrange; simpl length; [lia|].
  apply Forall_cons in Hrange as [Hxr Hrange].
  assert (Forall (fun y => x + 1 <= y < hi) l) as Hrange'.
  { rewrite Forall_forall in *. intros y Hy.
    specialize (Hx y Hy). specialize (Hrange y Hy). lia. }
  specialize (IH (x + 1) Hrange'). lia.
Qed.

Lemma rising_counts (l : list Z) (lo : Z) :
  StronglySorted Z.lt l ->
  Forall (fun x => lo <= x < lo + Z.of_nat (length l)) l ->
  l = seqZ lo (Z.of_nat (length l)).
Proof.
  intros Hsorted. revert lo.
  induction Hsorted as [|x l Hl IH Hx]; intros lo Hrange; [done|].
  apply Forall_cons in Hrange as [Hxr Hrange]. simpl length in *.
  assert (Forall (fun y => x + 1 <= y < lo + Z.of_nat (S (length l))) l) as Hrange'.
  { rewrite Forall_forall in *. intros y Hy.
    specialize (Hx y Hy). specialize (Hrange y Hy). lia. }
  pose proof (rising_length l _ _ Hl Hrange') as Hlen.
  assert (x = lo) as -> by lia.
  rewrite seqZ_cons by lia. f_equal.
  replace (Z.pred (Z.of_nat (S (length l)))) with (Z.of_nat (length l)) by lia.
  apply IH. eapply Forall_impl; [exact Hrange'|]. intros y Hy. simpl in Hy. lia.
Qed.

(** ** The generated category table *)

Section GeneratedCategories.
Import pathlib datapipes internal OxfordIITPet.
Implicit Types (set_iter : list (string * string) -> list (string * string)).
Implicit Types (config : DatasetConfig) (anns_dp : IterDataPipe entry).

Lemma generate_categories_rows set_iter anns_dp config :
  _generate_categories set_iter anns_dp config
  = categories_from set_iter (category_rows anns_dp config).
Proof. reflexivity. Qed.

Lemma remove_dups_set_iteration : Py.set_iteration (A := string * string) remove_dups.
Proof.
  intros inserted. split; [apply NoDup_remove_dups|].
  intros x. apply elem_of_remove_dups.
Defined.

Lemma set_iteration_nil set_iter : Py.set_iteration set_iter -> set_iter [] = [].
Proof.
  intros Hiter. destruct (Hiter []) as [_ Hin].
  destruct (set_iter []) as [|x l]; [done|].
  assert (x ∈ @nil (string * string)) as Hx by (apply Hin; left).
  by apply elem_of_nil in Hx.
Qed.

(** What a comprehension collects from an iterable that ends normally. *)
Lemma collect_Ok {A B : Type} (f : A -> result B) (items : list A)
    (tail : option exn) (bs : list B) :
  Py.collect f items tail = Ok bs ->
  tail = None
  /\ (forall a b, a ∈ items -> f a = Ok b -> b ∈ bs)
  /\ (forall b, b ∈ bs -> exists a, a ∈ items /\ f a = Ok b).
Proof.
  revert bs. induction items as [|a items IH]; intros bs; simpl.
  - destruct tail; [done|]. intros [= <-].
    split; [done|]. split; [by intros a b ?%elem_of_nil | by intros b ?%elem_of_nil].
  - destruct (f a) as [b|] eqn:Hfa; simpl; [|done].
    destruct (Py.collect f items tail) as [bs'|]; simpl; [|done].
    intros [= <-]. destruct (IH bs' eq_refl) as (Htail & Hin & Hout).
    split; [done|]. split.
    + intros a' b' [->|Ha']%elem_of_cons Hfa'.
      * rewrite Hfa in Hfa'. injection Hfa' as ->. left.
      * right. by apply (Hin a').
    + intros b' [->|Hb']%elem_of_cons.
      * exists a. split; [left | done].
      * destruct (Hout b' Hb') as (a' & Ha' & Hfa'). exists a'. split; [by right | done].
Qed.

Lemma collect_all_Ok {A B : Type} (f : A -> result B) (items : list A) :
  (forall a, a ∈ items -> exists b, f a = Ok b) ->
  exists bs, Py.collect f items None = Ok bs.
Proof.
  induction items as [|a items IH]; intros Hall; simpl; [by eexists|].
  destruct (Hall a) as [b Hb]; [left|]. rewrite Hb. simpl.
  destruct IH as [bs Hbs]; [intros a' Ha'; apply Hall; by right|].
  rewrite Hbs. simpl. by eexists.
Qed.

(** Every row that [_generate_categories] reads has its two fields. *)
Lemma category_rows_fields anns_dp config (data : gmap string string) :
  data ∈ yielded (category_rows anns_dp config) ->
  exists image_id label,
    data !! "image_id" = Some image_id /\ data !! "label" = Some label.
Proof.
  intros (line & _ & Hrow)%map_items_yielded.
  unfold parse_row in Hrow.
  destruct (Nat.eqb_spec (length (split_fields " " line)) (length line_fields))
    as [Hlen|]; [|done].
  injection Hrow as <-.
  destruct (split_fields " " line) as [|f0 [|f1 rest]]; try discriminate Hlen.
  exists f0, f1.
  unfold dict_zip. cbn [zip zip_with fold_left fst snd].
  split; [by rewrite lookup_insert_ne, lookup_insert_eq by discriminate|].
  by rewrite lookup_insert_eq.
Qed.

Lemma raw_category_and_label_Ok (data : gmap string string) (image_id label : string) :
  data !! "image_id" = Some image_id -> data !! "label" = Some label ->
  raw_category_and_label data = Ok (Py.rsplit_first image_id "_", label).
Proof.
  intros Hid Hl. unfold raw_category_and_label, Py.dict_getitem.
  by rewrite Hid, Hl.
Qed.

(** The table after a successful read: the names of the raw
    categories, in the order of the sorted pairs. *)
Lemma categories_from_sorted set_iter (rows : IterDataPipe (gmap string string))
    (pairs : list (string * string)) :
  Py.collect raw_category_and_label (yielded rows) (raised rows) = Ok pairs ->
  (forall r, r ∈ set_iter pairs -> exists n, Py.int r.2 = Ok n) ->
  set_iter pairs <> [] ->
  let sorted := Py.sort_by_key
                  ((fun r => (key_or_zero (fun r => Py.int r.2) r, r))
                     <$> set_iter pairs) in
  categories_from set_iter rows
  = Ok ((fun kr : Z * (string * string) => category_name kr.2.1) <$> sorted).
Proof.
  intros Hcollect Hkeys Hne sorted. unfold categories_from.
  rewrite Hcollect. simpl. unfold Py.sorted.
  rewrite (decorate_all_Ok (fun r : string * string => Py.int r.2)) by done.
  simpl. fold sorted.
  assert (sorted <> []) as Hsorted.
  { intros Hnil. apply Hne.
    apply (fmap_nil_inv (fun r => (key_or_zero (fun r => Py.int r.2) r, r))).
    apply Permutation_nil_r. rewrite <- sort_by_key_perm. fold sorted.
    by rewrite Hnil. }
  unfold Py.unzip2. destruct sorted as [|kr sorted'] eqn:Hs; [done|].
  simpl. unfold mret, result_ret. f_equal.
  by rewrite <- !list_fmap_compose.
Qed.

End GeneratedCategories.

(** X9. When the classification list of the default split has no line,
    because the file is missing or empty, [_generate_categories] raises
    ValueError: there is nothing to unpack. *)
Theorem generate_categories_without_lines
    (set_iter : list (string * string) -> list (string * string))
    (anns_dp : IterDataPipe entry) (config : OxfordIITPet.DatasetConfig) :
  Py.set_iteration set_iter ->
  classification_lines anns_dp config = [] ->
  raised anns_dp = None ->
  OxfordIITPet._generate_categories set_iter anns_dp config = Raise ValueError.
Proof.
  intros Hiter Hlines Hraised. rewrite generate_categories_rows.
  change (OxfordIITPet.category_rows anns_dp config)
    with (datapipes.map_items (datapipes.parse_row ["image_id"; "label"] " ")
            (classification_lines anns_dp config) (raised anns_dp)).
  rewrite Hlines, Hraised. unfold categories_from. simpl.
  by rewrite set_iteration_nil.
Qed.

(** An annotation archive with the list of another split only. *)
Lemma generate_categories_without_lines_witness :
  OxfordIITPet._generate_categories remove_dups
    (of_list [("annotations/test.txt", "catA_1 1 1 1");
              ("annotations/trimaps/catA_1.png", "PNG")])
    (OxfordIITPet.mkConfig "trainval")
  = Raise ValueError.
Proof.
  apply (generate_categories_without_lines remove_dups
           (of_list [("annotations/test.txt", "catA_1 1 1 1");
                     ("annotations/trimaps/catA_1.png", "PNG")])
           (OxfordIITPet.mkConfig "trainval")).
  - exact remove_dups_set_iteration.
  - reflexivity.
  - reflexivity.
Defined.

(** X10. When the rows are read without exception and the label field
    of one of them is no integer, [_generate_categories] raises
    ValueError, in whatever order the set of pairs is iterated. *)
Theorem generate_categories_label_not_integer
    (set_iter : list (string * string) -> list (string * string))
    (anns_dp : IterDataPipe entry) (config : OxfordIITPet.DatasetConfig)
    (data : gmap string string) (l : string) (e : exn) :
  Py.set_iteration set_iter ->
  raised (OxfordIITPet.category_rows anns_dp config) = None ->
  data ∈ yielded (OxfordIITPet.category_rows anns_dp config) ->
  data !! "label" = Some l -> Py.int l = Raise e ->
  OxfordIITPet._generate_categories set_iter anns_dp config = Raise ValueError.
Proof.
  intros Hiter Hraised Hdata Hl He. rewrite generate_categories_rows.
  unfold categories_from. rewrite Hraised.
  destruct (collect_all_Ok OxfordIITPet.raw_category_and_label
              (yielded (OxfordIITPet.category_rows anns_dp config)))
    as [pairs Hpairs].
  { intros row (image_id & label & Hid & Hlabel)%category_rows_fields.
    eexists. by apply raw_category_and_label_Ok. }
  rewrite Hpairs. simpl.
  destruct (category_rows_fields _ _ _ Hdata) as (image_id & l' & Hid & Hl').
  rewrite Hl in Hl'. injection Hl' as <-.
  assert ((Py.rsplit_first image_id "_", l) ∈ set_iter pairs) as Hin.
  { apply Hiter. apply collect_Ok in Hpairs as (_ & Hin & _).
    apply (Hin data); [done|]. by apply raw_category_and_label_Ok. }
  unfold Py.sorted.
  destruct (Py.decorate _ (set_iter pairs)) as [d|e'] eqn:Hd; simpl.
  - apply decorate_Ok in Hd as [_ Hall]. specialize (Hall _ Hin). simpl in Hall.
    rewrite He in Hall. done.
  - apply decorate_Raise in Hd as (r & _ & Hr).
    by rewrite (int_raises_ValueError _ _ Hr).
Qed.

(** A list whose second line has the label "x". *)
Lemma generate_categories_label_not_integer_witness :
  OxfordIITPet._generate_categories remove_dups
    (of_list [("annotations/trainval.txt",
               "catA_1 1 1 1" ++ String LF "dogB_2 x 2 1")])
    (OxfordIITPet.mkConfig "trainval")
  = Raise ValueError.
Proof.
  apply (generate_categories_label_not_integer remove_dups
           (of_list [("annotations/trainval.txt",
                      "catA_1 1 1 1" ++ String LF "dogB_2 x 2 1")])
           (OxfordIITPet.mkConfig "trainval")
           (datapipes.dict_zip ["image_id"; "label"] ["dogB_2"; "x"; "2"; "1"])
           "x" ValueError).
  - exact remove_dups_set_iteration.
  - reflexivity.
  - apply list_elem_of_In. vm_compute. right. left. reflexivity.
  - reflexivity.
  - reflexivity.
Defined.



(** X12. The table [_generate_categories] builds is the one the label
    decoder needs.  When the rows are read without exception and the
    pairs of raw category and label number the raw categories from 1 to
    their count, one label each, the table has one name per pair, and a
    record with the label and the image id of such a pair decodes to the
    index label - 1 and to the name of its own raw category. *)
Theorem generated_categories_decode
    (set_iter : list (string * string) -> list (string * string))
    (anns_dp : IterDataPipe entry) (config : OxfordIITPet.DatasetConfig)
    (pairs : list (string * string)) :
  Py.set_iteration set_iter ->
  Py.collect OxfordIITPet.raw_category_and_label
    (yielded (OxfordIITPet.category_rows anns_dp config))
    (raised (OxfordIITPet.category_rows anns_dp config)) = Ok pairs ->
  pairs <> [] ->
  (forall r, r ∈ pairs ->
     exists n, Py.int r.2 = Ok n /\ 1 <= n <= Z.of_nat (length (set_iter pairs))) ->
  (forall r r', r ∈ pairs -> r' ∈ pairs -> Py.int r.2 = Py.int r'.2 -> r = r') ->
  exists categories,
    OxfordIITPet._generate_categories set_iter anns_dp config = Ok categories
    /\ length categories = length (set_iter pairs)
    /\ forall (data : gmap string string) (image_id l s : string),
         data !! "image_id" = Some image_id -> data !! "label" = Some l ->
         data !! "species" = Some s ->
         (Py.rsplit_first image_id "_", l) ∈ pairs ->
         exists n,
           Py.int l = Ok n
           /\ OxfordIITPet._decode_classification_data categories data
              = Ok (OxfordIITPet.Classification.mk
                      (OxfordIITPet.mkLabel (n - 1)
                         (OxfordIITPet.category_name (Py.rsplit_first image_id "_")))
                      (if String.eqb s "1" then "cat" else "dog")).
Proof.
  intros Hiter Hcollect Hne Hrange Hinj.
  destruct (Hiter pairs) as [Hnodup Hin].
  set (key := fun r : string * string => Py.int r.2).
  set (decorated := (fun r => (key_or_zero key r, r)) <$> set_iter pairs).
  set (sorted := Py.sort_by_key decorated).
  assert (forall r, r ∈ set_iter pairs -> key r = Ok (key_or_zero key r)) as Hkey.
  { intros r Hr%Hin. destruct (Hrange r Hr) as (n & Hn & _).
    unfold key_or_zero, key. by rewrite Hn. }
  assert (set_iter pairs <> []) as Hne'.
  { destruct pairs as [|r pairs']; [done|]. intros Hnil.
    assert (r ∈ set_iter (r :: pairs')) as Hr by (apply Hin; left).
    rewrite Hnil in Hr. by apply elem_of_nil in Hr. }
  assert (length sorted = length (set_iter pairs)) as Hlen.
  { unfold sorted, decorated. by rewrite sort_by_key_perm, length_fmap. }
  assert (sorted.*1 = seqZ 1 (Z.of_nat (length (set_iter pairs)))) as Hkeys.
  { rewrite <- Hlen, <- (length_fmap fst). apply rising_counts.
    - apply (StronglySorted_fmap fst key_lt Z.lt); [done|].
      apply sorted_strict; [apply sort_by_key_sorted|].
      unfold sorted, decorated. rewrite sort_by_key_perm, <- list_fmap_compose.
      apply NoDup_fmap_2_strong; [|done].
      intros r r' Hr Hr' Heq. simpl in Heq.
      apply Hinj; [by apply Hin..|]. fold (key r) (key r').
      by rewrite (Hkey r Hr), (Hkey r' Hr'), Heq.
    - rewrite length_fmap, Hlen. apply Forall_forall. intros k Hk.
      apply list_elem_of_fmap in Hk as ([k' r] & -> & Hkr). simpl.
      unfold sorted in Hkr. rewrite sort_by_key_perm in Hkr.
      apply list_elem_of_fmap in Hkr as (r' & [= -> ->] & Hr').
      destruct (Hrange r' (proj1 (Hin r') Hr')) as (n & Hn & Hn').
      unfold key_or_zero, key. rewrite Hn. lia. }
  exists ((fun kr : Z * (string * string) =>
             OxfordIITPet.category_name kr.2.1) <$> sorted).
  split; [|split].
  - rewrite generate_categories_rows.
    apply categories_from_sorted; [done| |done].
    intros r Hr. eexists. by apply Hkey.
  - by rewrite length_fmap.
  - intros data image_id l s Hid Hl Hs Hpair.
    set (r := (Py.rsplit_first image_id "_", l)) in *.
    destruct (Hrange r Hpair) as (n & Hn & Hn'). exists n. split; [done|].
    assert ((key_or_zero key r, r) ∈ sorted) as Hsorted.
    { unfold sorted. rewrite sort_by_key_perm. apply list_elem_of_fmap.
      exists r. split; [done | by apply Hin]. }
    apply list_elem_of_lookup in Hsorted as [j Hj].
    assert (key_or_zero key r = n) as Hkn.
    { unfold key_or_zero, key. by rewrite Hn. }
    assert (sorted.*1 !! j = Some n) as Hjn.
    { rewrite list_lookup_fmap, Hj. simpl. by rewrite Hkn. }
    rewrite Hkeys in Hjn. apply lookup_seqZ in Hjn as [Hnj Hjlen].
    rewrite (decode_classification_eq _ _ _ _ _ Hl Hn Hs).
    destruct (getitem_in_range
                ((fun kr : Z * (string * string) =>
                    OxfordIITPet.category_name kr.2.1) <$> sorted) (n - 1))
      as (cat & Hcat & ->); [rewrite length_fmap, Hlen; lia|].
    replace (Z.to_nat (n - 1)) with j in Hcat by lia.
    rewrite list_lookup_fmap, Hj in Hcat. simpl in Hcat. injection Hcat as <-.
    done.
Qed.

(** Three lines, two raw categories, labels 2 and 1. *)
Lemma generated_categories_decode_witness :
  let anns :=
    of_list [("annotations/trainval.txt",
              "saint_bernard_7 2 2 1"
              ++ String LF ("Abyssinian_3 1 1 1" ++ String LF "saint_bernard_9 2 2 1"))] in
  exists categories,
    OxfordIITPet._generate_categories remove_dups anns (OxfordIITPet.mkConfig "trainval")
    = Ok categories
    /\ length categories = 2%nat
    /\ OxfordIITPet._decode_classification_data categories
         (datapipes.dict_zip fieldnames ["saint_bernard_9"; "2"; "2"; "1"])
       = Ok (OxfordIITPet.Classification.mk
               (OxfordIITPet.mkLabel 1 "Saint Bernard") "dog").
Proof.
  intros anns.
  destruct (generated_categories_decode remove_dups anns
              (OxfordIITPet.mkConfig "trainval")
              [("saint_bernard", "2"); ("Abyssinian", "1"); ("saint_bernard", "2")])
    as (categories & Hgen & Hlen & Hdec).
  - exact remove_dups_set_iteration.
  - reflexivity.
  - done.
  - intros r Hr. apply list_elem_of_In in Hr. simpl in Hr.
    destruct Hr as [<-|[<-|[<-|[]]]]; eexists; (split; [reflexivity|]);
      vm_compute; split; discriminate.
  - intros r r' Hr Hr'. apply list_elem_of_In in Hr, Hr'. simpl in Hr, Hr'.
    destruct Hr as [<-|[<-|[<-|[]]]]; destruct Hr' as [<-|[<-|[<-|[]]]];
      vm_compute; intros H; done.
  - exists categories. split; [exact Hgen|]. split; [exact Hlen|].
    destruct (Hdec (datapipes.dict_zip fieldnames ["saint_bernard_9"; "2"; "2"; "1"])
                "saint_bernard_9" "2" "2" eq_refl eq_refl eq_refl)
      as (n & Hn & Hd).
    + apply list_elem_of_In. simpl. by left.
    + vm_compute in Hn. injection Hn as <-. exact Hd.
Defined.
